(** * Fold-parallel k-fold cross-validation (src-openmp/cv.cpp, cv.hpp)

    A shallow embedding of the [CrossValidator] class and of the records
    [CVResult] and [HyperparameterSet], with the properties of the fold
    construction, of the per-fold training loop under OpenMP scheduling,
    of the score aggregation and of the selection of the best result.

    Conventions.
    - A C++ [int] is a [Z].  The additions on row and fold indices stay
      within the row count.  [random_seed_ + fold] and [completed_folds++]
      can leave the range of [int]: signed overflow is undefined in C++, and
      the compiled code wraps around; they are [int_add], the sum modulo
      [2^32] taken in [[-2^31, 2^31)].
    - A C++ [double] is a primitive binary64 float ([PrimFloat.float]), so
      the arithmetic of [calculateMeanStd] and the comparison of
      [getBestParams] are the IEEE 754 ones.
    - Undefined behaviour that the code can reach on bad input (division by
      zero, an index out of range) is the result [None]; so is an exception
      that leaves the function (a tree that cannot be built, an accuracy
      over vectors of different lengths): in both cases the caller gets no
      result. *)

From Stdlib Require Import ZArith Lia Floats String Permutation.
From stdpp Require Import base option list.

Local Open Scope Z_scope.

(** ** Data model *)

(** A [DataVector] is a sequence of doubles (a row or a column). *)
Definition DataVector : Type := list float.

(** Modelled from the spec: the class [DataFrame] (datasets.hpp/.cpp) is
    not among the sources.  The spec describes the Tabular Data Container
    as an ordered sequence of rows, each an ordered sequence of numeric
    values; [length] is its row count, [row i] its i-th row and [addRow]
    appends a row at the end. *)
Definition DataFrame : Type := list DataVector.

(** Modelled from the spec: [DataFrame::length()], the row count as an
    [int]. *)
Definition df_length (d : DataFrame) : Z := Z.of_nat (length d).

(** Modelled from the spec: [DataFrame::row(i)]; a row index outside
    [0, length) has no row. *)
Definition df_row (d : DataFrame) (i : Z) : option DataVector :=
  if (0 <=? i) && (i <? df_length d) then d !! Z.to_nat i else None.

(** Modelled from the spec: [DataFrame::addRow(r)], appending at the end. *)
Definition addRow (d : DataFrame) (r : DataVector) : DataFrame := d ++ [r].

(** [struct CVResult] of cv.hpp, built by its six-argument constructor. *)
Record CVResult : Type := mkCVResult {
  dataset : string;
  cv_max_depth : Z;
  cv_time_ms : float;
  mean_cv_accuracy : float;
  std_cv_accuracy : float;
  fold_scores : list float
}.

(** [struct HyperparameterSet] of cv.hpp. *)
Record HyperparameterSet : Type := mkHyperparameterSet {
  max_depth : Z;
  min_obs : Z;
  loss : string
}.

(** The constructor
    [HyperparameterSet(int depth = 5, int min_obs_val = 1,
                       std::string loss_func = "gini_impurity")]
    at its three arities. *)
Definition HyperparameterSet_default : HyperparameterSet :=
  mkHyperparameterSet 5 1 "gini_impurity".

Definition HyperparameterSet_of_depth (depth : Z) : HyperparameterSet :=
  mkHyperparameterSet depth 1 "gini_impurity".

(** The private state of [class CrossValidator]. *)
Record CrossValidator : Type := mkCrossValidator {
  data_ : DataFrame;
  k_folds_ : Z;
  random_seed_ : Z;
  regression_ : bool
}.

(** The one way construction fails: one of the two [assert]s of the
    constructor does not hold (the spec's [InvalidFoldCount]). *)
Inductive ctor_error : Type := InvalidFoldCount.

(** [CrossValidator::CrossValidator(data, k_folds, seed, regression)]:
    the members are initialised from the arguments, then
    [assert(k_folds > 1)] and [assert(data.length() >= k_folds)].  The
    asserts are active: the build commands of the repository do not define
    [NDEBUG]. *)
Definition CrossValidator_new (data : DataFrame) (k_folds seed : Z)
    (regression : bool) : ctor_error + CrossValidator :=
  let this := mkCrossValidator data k_folds seed regression in
  if negb (k_folds >? 1) then inl InvalidFoldCount
  else if negb (df_length data >=? k_folds) then inl InvalidFoldCount
  else inr this.

(** ** Machine integers *)

(** The [int] that a 32-bit two's-complement machine holds for the
    mathematical value [z]. *)
Definition int_wrap (z : Z) : Z := (z + 2 ^ 31) mod 2 ^ 32 - 2 ^ 31.

(** [a + b] on two [int]s. *)
Definition int_add (a b : Z) : Z := int_wrap (a + b).

(** ** Loops *)

(** [for (int i = lo; ...; i++) body], run for [n] iterations from [i]:
    the body may fail, which ends the loop. *)
Fixpoint for_from {St : Type} (n : nat) (i : Z) (body : Z -> St -> option St)
    (s : St) : option St :=
  match n with
  | O => Some s
  | S n' =>
      match body i s with
      | Some s' => for_from n' (i + 1) body s'
      | None => None
      end
  end.

(** [for (int i = lo; i < hi; i++) body]. *)
Definition for_range {St : Type} (lo hi : Z) (body : Z -> St -> option St)
    (s : St) : option St :=
  for_from (Z.to_nat (hi - lo)) lo body s.

(** ** Score aggregation *)

(** [scores.size()] converted to [double] for the two divisions. *)
Definition size_to_double (scores : list float) : float :=
  PrimFloat.of_uint63 (Uint63.of_Z (Z.of_nat (length scores))).

(** [CrossValidator::calculateMeanStd]: two passes over the scores, each a
    range-based [for] accumulating from [0.0] in index order. *)
Definition calculateMeanStd (scores : list float) : float * float :=
  match scores with
  | [] => (0%float, 0%float)
  | _ =>
      let sum := fold_left (fun sum score => (sum + score)%float) scores 0%float in
      let mean := (sum / size_to_double scores)%float in
      let variance_sum :=
        fold_left (fun variance_sum score =>
                     let diff := (score - mean)%float in
                     (variance_sum + diff * diff)%float) scores 0%float in
      let std_dev := PrimFloat.sqrt (variance_sum / size_to_double scores) in
      (mean, std_dev)
  end.

(** ** Collaborators outside the sources *)

(** The nine arguments of one [DecisionTree] constructor call, in the
    order of the call in [validateSingleHyperparameter]. *)
Record TreeCall : Type := mkTreeCall {
  tc_data : DataFrame;
  tc_regression : bool;
  tc_loss : string;
  tc_mtry : Z;
  tc_max_height : Z;
  tc_max_leaves : Z;
  tc_min_obs : Z;
  tc_max_prop : float;
  tc_seed : Z
}.

(** Modelled from the spec: datasets.cpp, decision_tree.cpp and metrics.cpp
    are not among the sources; the cross-validator uses them through this
    interface only, as functions of their arguments (a tree is determined
    by the arguments of its constructor).  [sample d n seed replace] is
    [DataFrame::sample],
    [DecisionTree_new] the constructor of the Decision Tree Engine (by the
    spec's Hyperparameter Set, [max_split_proportion] is a float and the
    other limits are ints), [predict] gives one prediction per row, [col]
    a column (index [-1]: the label column) and [accuracy] the fraction of
    matching positions.

    The calls made inside the fold loop can fail, and then give [None]:
    by the spec the build of a tree fails with [InsufficientData] (fewer
    rows than [min_obs_per_leaf], or no usable feature) and with
    [InvalidHyperparameter] (a malformed set, such as
    [min_obs_per_leaf <= 0]), and [accuracy] fails with [LengthMismatch]
    when its two vectors differ in length; [predict] and [col] are given
    the same freedom.  cv.cpp catches nothing: such a failure leaves
    [validateSingleHyperparameter] as an exception (the driver catches
    [std::exception] around its calls of [validateDepth]). *)
Class Collaborators : Type := {
  sample : DataFrame -> Z -> Z -> bool -> DataFrame;
  DecisionTree : Type;
  DecisionTree_new : TreeCall -> option DecisionTree;
  predict : DecisionTree -> DataFrame -> option DataVector;
  col : DataFrame -> Z -> option DataVector;
  accuracy : DataVector -> DataVector -> option float
}.

(** What the OpenMP runtime decides for the [r]-th parallel region the
    process enters: the size of the thread team, and for a loop of [k]
    iterations the order in which the iterations run, each with the number
    of the thread that runs it. *)
Class OmpRuntime : Type := {
  omp_get_num_threads : nat -> Z;
  omp_schedule : nat -> Z -> list (Z * Z)
}.

(** What the program writes to standard output. *)
Inductive output : Type :=
  | ParallelCVBanner (num_threads : Z)
  | BestHyperparameters (best_depth : Z) (best_score : float).

(** The state of the process that outlives a call: the function-local
    [static int completed_folds] of [validateSingleHyperparameter], the
    text written so far, and the number of parallel regions entered. *)
Record process : Type := mkProcess {
  completed_folds : Z;
  console : list output;
  regions : nat
}.

(** The state the iterations of the parallel loop work on: the shared
    vector [fold_scores], the process state, and (a ghost field) the
    constructor calls made so far. *)
Record region : Type := mkRegion {
  scores : list float;
  trained : list TreeCall;
  proc : process
}.

Notation "'do' x <- m ; k" :=
  (match m with Some x => k | None => None end)
  (at level 10, x name, m at level 100, k at level 200, only parsing).

Section Code.
Context {C : Collaborators} {R : OmpRuntime}.

(** ** Fold construction *)

(** [fold_size + (i < remainder ? 1 : 0)]. *)
Definition block_size (fold_size remainder i : Z) : Z :=
  fold_size + (if i <? remainder then 1 else 0).

(** One iteration of the outer loop of [createKFolds]. *)
Definition createKFolds_body (shuffled_data : DataFrame)
    (fold_size remainder : Z) (fold : Z) (folds : list (list DataFrame))
    : option (list (list DataFrame)) :=
  let current_fold_size := block_size fold_size remainder fold in
  do start_idx <-
    for_range 0 fold
      (fun i start_idx => Some (start_idx + block_size fold_size remainder i)) 0;
  let end_idx := start_idx + current_fold_size in
  do validation_data <-
    for_range start_idx end_idx
      (fun i validation_data =>
         do r <- df_row shuffled_data i; Some (addRow validation_data r)) [];
  do training_data <-
    for_range 0 (df_length shuffled_data)
      (fun i training_data =>
         if (i <? start_idx) || (i >=? end_idx)
         then do r <- df_row shuffled_data i; Some (addRow training_data r)
         else Some training_data) [];
  let fold_pair := [training_data; validation_data] in
  Some (folds ++ [fold_pair]).

(** [CrossValidator::createKFolds(data, k, seed)].  C++ integer division
    truncates ([Z.quot], [Z.rem]); dividing by zero is undefined. *)
Definition createKFolds (data : DataFrame) (k seed : Z)
    : option (list (list DataFrame)) :=
  let shuffled_data := sample data (-1) seed false in
  if k =? 0 then None
  else
    let fold_size := Z.quot (df_length shuffled_data) k in
    let remainder := Z.rem (df_length shuffled_data) k in
    for_range 0 k (createKFolds_body shuffled_data fold_size remainder) [].

(** ** Cross-validation of one hyperparameter set *)

(** The block under [#pragma omp master]: only thread 0 of the team runs
    it. *)
Definition master_block (num_threads tid : Z) (p : process) : process :=
  if tid =? 0 then
    let completed := int_add (completed_folds p) 1 in
    mkProcess completed
      (if completed =? 1 then console p ++ [ParallelCVBanner num_threads]
       else console p)
      (regions p)
  else p.

(** The body of the parallel loop of [validateSingleHyperparameter], run
    for iteration [fold] by thread [tid] of a team of [num_threads].  The
    iteration ends without a state when [folds[fold]] does not exist, when
    the constructor of the tree, [predict], [col] or [accuracy] throws, and
    when [fold_scores[fold]] does not exist. *)
Definition fold_body (cv : CrossValidator) (params : HyperparameterSet)
    (folds : list (list DataFrame)) (num_threads tid fold : Z)
    (st : region) : option region :=
  if negb ((0 <=? fold) && (fold <? Z.of_nat (length folds))) then None
  else
    do fold_pair <- folds !! Z.to_nat fold;
    do train_data <- fold_pair !! 0%nat;
    do val_data <- fold_pair !! 1%nat;
    let call :=
      mkTreeCall train_data (regression_ cv) (loss params)
        (-1) (max_depth params) (-1) (min_obs params) (-1)%float
        (int_add (random_seed_ cv) fold) in
    do tree <- DecisionTree_new call;
    do predictions <- predict tree val_data;
    do true_labels <- col val_data (-1);
    do fold_accuracy <- accuracy true_labels predictions;
    if negb (fold <? Z.of_nat (length (scores st))) then None
    else
      Some (mkRegion (<[Z.to_nat fold := fold_accuracy]> (scores st))
                     (trained st ++ [call])
                     (master_block num_threads tid (proc st))).

(** Running the iterations in the order of a schedule. *)
Fixpoint run_schedule (body : Z -> Z -> region -> option region)
    (sched : list (Z * Z)) (st : region) : option region :=
  match sched with
  | [] => Some st
  | (tid, fold) :: rest =>
      do st' <- body tid fold st; run_schedule body rest st'
  end.

(** The state in which the loop starts: [fold_scores(k_folds_, 0.0)]. *)
Definition region_init (cv : CrossValidator) (p : process) : region :=
  mkRegion (replicate (Z.to_nat (k_folds_ cv)) 0%float) [] p.

(** The loop of [validateSingleHyperparameter] with the meaning OpenMP
    gives to its directives: the iterations [0 .. k_folds_ - 1] run in the
    runtime's order, each on a thread of the team, and the block under
    [omp master] is run by thread 0 only.  (That block is closely nested
    in the [parallel for] loop, which OpenMP does not allow: GCC refuses
    the function under [-fopenmp].  The loop below, with the directives
    ignored, is what a build without OpenMP runs.)
    A negative [k_folds_] makes the constructor of [fold_scores] throw,
    and an exception in an iteration ends the run without a result. *)
Definition fold_loop_parallel (cv : CrossValidator)
    (params : HyperparameterSet) (p : process) : option region :=
  do folds <- createKFolds (data_ cv) (k_folds_ cv) (random_seed_ cv);
  if k_folds_ cv <? 0 then None
  else
    let r := regions p in
    let p1 := mkProcess (completed_folds p) (console p) (S r) in
    run_schedule (fold_body cv params folds (omp_get_num_threads r))
      (omp_schedule r (k_folds_ cv)) (region_init cv p1).

(** The same loop with the directives ignored: one thread runs the
    iterations in increasing order, every iteration runs the block that
    stands under [omp master], and [omp_get_num_threads()] is [1]. *)
Definition fold_loop_sequential (cv : CrossValidator)
    (params : HyperparameterSet) (p : process) : option region :=
  do folds <- createKFolds (data_ cv) (k_folds_ cv) (random_seed_ cv);
  if k_folds_ cv <? 0 then None
  else
    for_range 0 (k_folds_ cv) (fold_body cv params folds 1 0)
      (region_init cv p).

(** The end of [validateSingleHyperparameter]: aggregation and the
    construction of the result. *)
Definition make_result (params : HyperparameterSet) (dataset_name : string)
    (st : region) : CVResult * process :=
  let mean_std := calculateMeanStd (scores st) in
  (mkCVResult dataset_name (max_depth params) 0%float
     (fst mean_std) (snd mean_std) (scores st),
   proc st).

(** [CrossValidator::validateSingleHyperparameter(params, dataset_name)],
    with its OpenMP directives. *)
Definition validateSingleHyperparameter (cv : CrossValidator)
    (params : HyperparameterSet) (dataset_name : string) (p : process)
    : option (CVResult * process) :=
  do st <- fold_loop_parallel cv params p;
  Some (make_result params dataset_name st).

(** The same function with the directives ignored. *)
Definition validateSingleHyperparameter_sequential (cv : CrossValidator)
    (params : HyperparameterSet) (dataset_name : string) (p : process)
    : option (CVResult * process) :=
  do st <- fold_loop_sequential cv params p;
  Some (make_result params dataset_name st).

(** [CrossValidator::validateDepth]. *)
Definition validateDepth (cv : CrossValidator) (depth : Z)
    (dataset_name : string) (p : process) : option (CVResult * process) :=
  let params := HyperparameterSet_of_depth depth in
  validateSingleHyperparameter cv params dataset_name p.

(** ** Grid search *)

(** [CrossValidator::gridSearchCV]: a range-based [for] over the grid,
    pushing each result at the back. *)
Fixpoint gridSearchCV_loop (cv : CrossValidator)
    (param_grid : list HyperparameterSet) (dataset_name : string)
    (results : list CVResult) (p : process)
    : option (list CVResult * process) :=
  match param_grid with
  | [] => Some (results, p)
  | params :: rest =>
      do rp <- validateSingleHyperparameter cv params dataset_name p;
      gridSearchCV_loop cv rest dataset_name (results ++ [fst rp]) (snd rp)
  end.

Definition gridSearchCV (cv : CrossValidator)
    (param_grid : list HyperparameterSet) (dataset_name : string)
    (p : process) : option (list CVResult * process) :=
  gridSearchCV_loop cv param_grid dataset_name [] p.


End Code.

(** ** Selection of the best result *)

(** The scan of [getBestParams]: [best_score] and [best_depth] start at
    the first result and move on a strictly greater mean. *)
Definition best_scan (cv_results : list CVResult) (init : float * Z)
    : float * Z :=
  fold_left
    (fun best result =>
       if (fst best <? mean_cv_accuracy result)%float
       then (mean_cv_accuracy result, cv_max_depth result)
       else best)
    cv_results init.

(** [CrossValidator::getBestParams(cv_results)]. *)
Definition getBestParams (cv_results : list CVResult) (p : process)
    : HyperparameterSet * process :=
  match cv_results with
  | [] => (HyperparameterSet_default, p)
  | first :: _ =>
      let best :=
        best_scan cv_results (mean_cv_accuracy first, cv_max_depth first) in
      let best_score := fst best in
      let best_depth := snd best in
      (HyperparameterSet_of_depth best_depth,
       mkProcess (completed_folds p)
         (console p ++ [BestHyperparameters best_depth best_score])
         (regions p))
  end.

(** ** A small instance, for running the code *)

(** A team of one thread that runs the iterations in increasing order:
    under this runtime the loop with its directives runs as the loop with
    the directives ignored. *)
Definition serial_runtime : OmpRuntime := {|
  omp_get_num_threads := fun _ => 1;
  omp_schedule := fun _ k => (fun f => (0, f)) <$> seqZ 0 k
|}.

Module Toy.

(** The label of a row: its last value. *)
Definition label (r : DataVector) : float := List.last r 0%float.

(** The number of positions at which two vectors agree. *)
Definition matches (a b : DataVector) : Z :=
  Z.of_nat (length (filter (fun xy => (fst xy =? snd xy)%float = true)
                      (zip a b))).

(** A shuffle that reverses the rows; a tree that always predicts the
    label of its first training row, and cannot be built from no row or
    with [min_obs] below [1]; the usual accuracy, which fails on vectors
    of different lengths. *)
Definition collaborators : Collaborators := {|
  sample := fun d _ _ _ => reverse d;
  DecisionTree := float;
  DecisionTree_new := fun call =>
    if tc_min_obs call <? 1 then None
    else match tc_data call with r :: _ => Some (label r) | [] => None end;
  predict := fun t d => Some ((fun _ => t) <$> d);
  col := fun d _ => Some (label <$> d);
  accuracy := fun a b =>
    if negb (length a =? length b)%nat then None
    else
      Some (PrimFloat.of_uint63 (Uint63.of_Z (matches a b))
            / PrimFloat.of_uint63 (Uint63.of_Z (Z.of_nat (length a))))%float
|}.

(** A runtime with a team of [threads] threads that runs the iterations
    from the last to the first, iteration [f] on thread [f mod threads]. *)
Definition runtime (threads : Z) : OmpRuntime := {|
  omp_get_num_threads := fun _ => threads;
  omp_schedule := fun _ k => (fun f => (f mod threads, f)) <$> reverse (seqZ 0 k)
|}.

Definition rows : DataFrame :=
  [ [1; 0]; [2; 1]; [3; 0]; [4; 1]; [5; 1]; [6; 0] ]%float.

Definition cv : CrossValidator := mkCrossValidator rows 4 42 false.

Definition start : process := mkProcess 0 [] 0.

End Toy.

(** ** The blocks of a fold set, as the spec describes them *)

(** The rows of [d] at the indices [a, b). *)
Definition rows_between (d : DataFrame) (a b : Z) : DataFrame :=
  take (Z.to_nat (b - a)) (drop (Z.to_nat a) d).

(** Size of block [i] when [n] rows are cut into [k] blocks: one more than
    the quotient for the first [n mod k] blocks. *)
Definition block_len (n k i : Z) : Z :=
  if i <? n mod k then n / k + 1 else n / k.

(** Index of the first row of block [i]. *)
Definition block_start (n k i : Z) : Z := i * (n / k) + Z.min i (n mod k).

(** The validation subset of fold [i]: block [i] of the shuffled rows. *)
Definition validation_block (shuffled : DataFrame) (k i : Z) : DataFrame :=
  let n := df_length shuffled in
  rows_between shuffled (block_start n k i) (block_start n k i + block_len n k i).

(** The training subset of fold [i]: the shuffled rows before and after
    block [i], in their order. *)
Definition training_rows (shuffled : DataFrame) (k i : Z) : DataFrame :=
  let n := df_length shuffled in
  take (Z.to_nat (block_start n k i)) shuffled
  ++ drop (Z.to_nat (block_start n k i + block_len n k i)) shuffled.

(** The pair [{training_data, validation_data}] of fold [i]. *)
Definition fold_pair_of (shuffled : DataFrame) (k i : Z) : list DataFrame :=
  [training_rows shuffled k i; validation_block shuffled k i].

(** The validation subset stored in a fold pair, [folds[fold][1]]. *)
Definition validation_of (fold_pair : list DataFrame) : DataFrame :=
  default [] (fold_pair !! 1%nat).

(** ** What one fold computes, as the spec describes it *)

(** The sum of the validator's seed and a fold index as an [int] holds
    it: the sum itself when it lies in [[-2^31, 2^31)], and else the
    number of that range that differs from it by a multiple of [2^32]. *)
Definition fold_seed (cv : CrossValidator) (fold : Z) : Z :=
  (random_seed_ cv + fold + 2147483648) mod 4294967296 - 2147483648.

(** The constructor call of fold [fold]: the input hyperparameters, every
    other limit switched off, and the seed of the validator plus the fold
    index. *)
Definition fold_call (cv : CrossValidator) (params : HyperparameterSet)
    (train_data : DataFrame) (fold : Z) : TreeCall :=
  {| tc_data := train_data;
     tc_regression := regression_ cv;
     tc_loss := loss params;
     tc_mtry := -1;
     tc_max_height := max_depth params;
     tc_max_leaves := -1;
     tc_min_obs := min_obs params;
     tc_max_prop := (-1)%float;
     tc_seed := fold_seed cv fold |}.

(** The accuracy, on a validation subset, of the tree a call builds,
    against the label column of the subset; there is none when the tree
    cannot be built or one of the three later calls fails. *)
Definition call_accuracy {C : Collaborators} (call : TreeCall)
    (val_data : DataFrame) : option float :=
  do tree <- DecisionTree_new call;
  do predictions <- predict tree val_data;
  do true_labels <- col val_data (-1);
  accuracy true_labels predictions.

(** The call and the score of fold [fold] of a validator. *)
Definition call_of_fold {C : Collaborators} (cv : CrossValidator)
    (params : HyperparameterSet) (fold : Z) : TreeCall :=
  let shuffled := sample (data_ cv) (-1) (random_seed_ cv) false in
  fold_call cv params (training_rows shuffled (k_folds_ cv) fold) fold.

Definition score_of_fold {C : Collaborators} (cv : CrossValidator)
    (params : HyperparameterSet) (fold : Z) : option float :=
  let shuffled := sample (data_ cv) (-1) (random_seed_ cv) false in
  call_accuracy (call_of_fold cv params fold)
    (validation_block shuffled (k_folds_ cv) fold).

(** The fold set of a validator: its [k] block pairs in block order. *)
Definition fold_set_of {C : Collaborators} (cv : CrossValidator)
    : list (list DataFrame) :=
  let shuffled := sample (data_ cv) (-1) (random_seed_ cv) false in
  fold_pair_of shuffled (k_folds_ cv) <$> seqZ 0 (k_folds_ cv).

(** A runtime is fair for loops of [k] iterations when, in every parallel
    region, each of the iterations [0 .. k-1] runs exactly once (on any
    thread, in any order). *)
Definition fair_runtime (R : OmpRuntime) (k : Z) : Prop :=
  forall r : nat, (omp_schedule r k).*2 ≡ₚ seqZ 0 k.

(** The shuffle of [createKFolds] keeps every row exactly once. *)
Definition shuffles_all (C : Collaborators) : Prop :=
  forall (d : DataFrame) (seed : Z), sample d (-1) seed false ≡ₚ d.

(** Writing the scores of the iterations [fs], in that order, into a
    score vector. *)
Definition write_scores (score : Z -> float) (fs : list Z) (s : list float)
    : list float :=
  foldl (fun s f => <[Z.to_nat f := score f]> s) s fs.

(** The master blocks of a schedule, in its order. *)
Definition master_blocks (num_threads : Z) (sched : list (Z * Z))
    (p : process) : process :=
  foldl (fun p tf => master_block num_threads (fst tf) p) p sched.

(** ** Mean and population standard deviation, as the spec describes them *)

(** The sum of the first [n] terms, added in index order from [0.0]. *)
Fixpoint sum_first (n : nat) (term : nat -> float) : float :=
  match n with
  | O => 0%float
  | S m => (sum_first m term + term m)%float
  end.

(** The score at index [i]. *)
Definition score_at (scores : list float) (i : nat) : float :=
  default 0%float (scores !! i).

(** The number [k] as a double: the binary64 value that IEEE 754 rounding
    to nearest gives for the integer [k] ([k] itself up to [2^53]). *)
Definition double_of_count (k : nat) : float :=
  SF2Prim (binary_normalize prec emax (Z.of_nat k) 0 false).

(** The sum of the scores divided by their number [k]. *)
Definition mean_of (scores : list float) : float :=
  (sum_first (length scores) (score_at scores)
   / double_of_count (length scores))%float.

(** The squared deviation of the score at index [i] from the mean. *)
Definition squared_deviation (scores : list float) (i : nat) : float :=
  ((score_at scores i - mean_of scores) * (score_at scores i - mean_of scores))%float.

(** The square root of the sum of the squared deviations divided by [k]
    (and not by [k - 1]). *)
Definition population_std_of (scores : list float) : float :=
  PrimFloat.sqrt
    (sum_first (length scores) (squared_deviation scores)
     / double_of_count (length scores)).

(** ** The best result, as the spec describes it *)

(** [r], at index [i], has a mean that no result among the first [m]
    exceeds and that no result before it reaches. *)
Definition first_maximum (cv_results : list CVResult) (m i : nat)
    (r : CVResult) : Prop :=
  cv_results !! i = Some r
  /\ (forall j r', (j < m)%nat -> cv_results !! j = Some r' ->
        (mean_cv_accuracy r <? mean_cv_accuracy r')%float = false)
  /\ (forall j r', (j < i)%nat -> cv_results !! j = Some r' ->
        (mean_cv_accuracy r <=? mean_cv_accuracy r')%float = false).

(** ** The result of one cross-validation, as the spec describes it *)

(** The training subset stored in a fold pair, [folds[fold][0]]. *)
Definition training_of (fold_pair : list DataFrame) : DataFrame :=
  default [] (fold_pair !! 0%nat).

(** The pair of fold [i] in a fold set, [folds[i]]. *)
Definition fold_at (folds : list (list DataFrame)) (i : Z) : list DataFrame :=
  default [] (folds !! Z.to_nat i).

(** The score of a fold, and [0.0] for a fold without one. *)
Definition score_or_zero {C : Collaborators} (cv : CrossValidator)
    (params : HyperparameterSet) (fold : Z) : float :=
  default 0%float (score_of_fold cv params fold).

(** Every fold of a validator gets a score: each of its [k] trees can be
    built and scored. *)
Definition folds_succeed {C : Collaborators} (cv : CrossValidator)
    (params : HyperparameterSet) : Prop :=
  forall i, 0 <= i < k_folds_ cv -> is_Some (score_of_fold cv params i).

(** The result for one hyperparameter set, when every fold gets a score:
    the scores of the folds in fold order, their aggregates, and [0.0] in
    the time field. *)
Definition cv_result_of {C : Collaborators} (cv : CrossValidator)
    (params : HyperparameterSet) (dataset_name : string) : option CVResult :=
  do fold_scores <- mapM (score_of_fold cv params) (seqZ 0 (k_folds_ cv));
  let mean_std := calculateMeanStd fold_scores in
  Some (mkCVResult dataset_name (max_depth params) 0%float
          (fst mean_std) (snd mean_std) fold_scores).

(** A constructor call with feature subsampling, the leaf limit and the
    split-proportion limit all switched off. *)
Definition unlimited (call : TreeCall) : Prop :=
  tc_mtry call = -1 /\ tc_max_leaves call = -1
  /\ tc_max_prop call = (-1)%float.

(** ** The benchmark driver (cv_parallel.cpp) *)

(** How the output streams write numbers: [operator<<] for an [int], and
    for a [double] under [std::fixed << std::setprecision(4)].  Both are
    the C++ library's; they are parameters here. *)
Class Formatting : Type := {
  show_int : Z -> string;
  show_fixed4 : float -> string
}.

(** The end of a line. *)
Definition newline : string := String (Ascii.ascii_of_nat 10) EmptyString.

(** The header line of [writeCVResultsToCSV]. *)
Definition cv_csv_header : string :=
  ("version,dataset,max_depth,cv_time_ms,mean_cv_accuracy,std_cv_accuracy,"
   ++ "fold1_acc,fold2_acc,fold3_acc,fold4_acc,warmup_runs,measurement_runs"
   ++ newline)%string.

(** One iteration of the loop of [writeCVResultsToCSV] over the results:
    the fixed fields, then
    [for (size_t i = 0; i < r.fold_scores.size() && i < 4; i++)] writing a
    comma and a fold score, then
    [for (size_t i = r.fold_scores.size(); i < 4; i++)] writing a comma,
    then [",1,1"] and the end of the line. *)
Definition writeCVResultsToCSV_row {F : Formatting} (r : CVResult)
    (file : string) : option string :=
  let size := Z.of_nat (length (fold_scores r)) in
  let file :=
    (file ++ "parallel_cv," ++ dataset r ++ ","
     ++ show_int (cv_max_depth r) ++ ","
     ++ show_fixed4 (cv_time_ms r) ++ ","
     ++ show_fixed4 (mean_cv_accuracy r) ++ ","
     ++ show_fixed4 (std_cv_accuracy r))%string in
  do file <-
    for_range 0 (Z.min size 4)
      (fun i file =>
         do score <- fold_scores r !! Z.to_nat i;
         Some (file ++ "," ++ show_fixed4 score)%string) file;
  do file <- for_range size 4 (fun _ file => Some (file ++ ",")%string) file;
  Some (file ++ ",1,1" ++ newline)%string.

(** The range-based [for] of [writeCVResultsToCSV] over the results. *)
Fixpoint writeCVResultsToCSV_rows {F : Formatting} (results : list CVResult)
    (file : string) : option string :=
  match results with
  | [] => Some file
  | r :: rest =>
      do file <- writeCVResultsToCSV_row r file;
      writeCVResultsToCSV_rows rest file
  end.

(** Whether [std::ofstream file(filename)] can open the file for writing:
    the file system decides. *)
Class FileSystem : Type := {
  can_open : string -> bool
}.

(** [writeCVResultsToCSV(results, filename)]: the text the file holds
    afterwards and the text written to the standard output.  The function
    never looks at the state of its stream: when the file cannot be opened
    every [<<] on the stream does nothing, no file is written ([None]), and
    the message is printed all the same.  A stream that did open is taken
    to accept every write. *)
Definition writeCVResultsToCSV {F : Formatting} {FS : FileSystem}
    (results : list CVResult) (filename : string)
    : option (option string * string) :=
  do file <- writeCVResultsToCSV_rows results cv_csv_header;
  Some (if can_open filename then Some file else None,
        ("Results saved to " ++ filename ++ newline)%string).


(** [std::max(a, b)] and [std::min(a, b)] on doubles: [b] when [a < b]
    (resp. [b < a]), else [a]. *)
Definition std_max (a b : float) : float := if (a <? b)%float then b else a.
Definition std_min (a b : float) : float := if (b <? a)%float then b else a.

(** The five variables of the summary block at the end of [main], for one
    dataset (the block then prints them, with the number of tests and the
    average time). *)
Record cv_summary : Type := mkSummary {
  total_time : float;
  max_time : float;
  min_time : float;
  best_cv_acc : float;
  best_depth : Z
}.

(** The body of the loop over [dataset_results] in [main]. *)
Definition summary_step (s : cv_summary) (r : CVResult) : cv_summary :=
  let total_time := (total_time s + cv_time_ms r)%float in
  let max_time := std_max (max_time s) (cv_time_ms r) in
  let min_time := std_min (min_time s) (cv_time_ms r) in
  if (best_cv_acc s <? mean_cv_accuracy r)%float
  then mkSummary total_time max_time min_time
         (mean_cv_accuracy r) (cv_max_depth r)
  else mkSummary total_time max_time min_time (best_cv_acc s) (best_depth s).

(** The per-dataset block of [main]: the results of the dataset are
    collected by name; when there are none nothing is computed (the
    result [None]); otherwise the loop starts from
    [total_time = 0], [max_time = 0], [min_time = dataset_results[0].cv_time_ms],
    [best_cv_acc = 0] and [best_depth = 0]. *)
Definition dataset_summary (all_results : list CVResult) (name : string)
    : option cv_summary :=
  let dataset_results :=
    fold_left
      (fun dataset_results r =>
         if String.eqb (dataset r) name then dataset_results ++ [r]
         else dataset_results)
      all_results [] in
  match dataset_results with
  | [] => None
  | first :: _ =>
      Some (fold_left summary_step dataset_results
              (mkSummary 0 0 (cv_time_ms first) 0 0))
  end.

(** A running extremum: the scan keeps a key and a value, and moves to
    those of an element when [lt] holds from the kept key to the
    element's key. *)
Definition running_best {A B : Type} (lt : float -> float -> bool)
    (key : A -> float) (val : A -> B) (l : list A) (init : float * B)
    : float * B :=
  fold_left (fun st x => if lt (fst st) (key x) then (key x, val x) else st)
    l init.

(** ** The rows of the CSV file, as a reader sees them *)

(** The twelve fields of the row of a result: the fold columns hold the
    first four fold scores, and are empty where a score is missing. *)
Definition csv_fields {F : Formatting} (r : CVResult) : list string :=
  ["parallel_cv"%string; dataset r; show_int (cv_max_depth r);
   show_fixed4 (cv_time_ms r); show_fixed4 (mean_cv_accuracy r);
   show_fixed4 (std_cv_accuracy r)]
  ++ resize 4 EmptyString (show_fixed4 <$> fold_scores r)
  ++ ["1"%string; "1"%string].

(** The number of occurrences of a character in a text. *)
Fixpoint count_char (c : Ascii.ascii) (s : string) : nat :=
  match s with
  | EmptyString => 0
  | String c' rest =>
      (if Ascii.eqb c c' then 1 else 0) + count_char c rest
  end.

Definition comma : Ascii.ascii := Ascii.ascii_of_nat 44.

(** The fields of a list, each after a comma. *)
Fixpoint comma_before (fields : list string) : string :=
  match fields with
  | [] => EmptyString
  | field :: rest => ("," ++ field ++ comma_before rest)%string
  end.

(** The line of a result in the file. *)
Definition csv_line {F : Formatting} (r : CVResult) : string :=
  (String.concat "," (csv_fields r) ++ newline)%string.


(** ** A small formatting, for running the driver *)

Module ToyFormat.

(** Integers are written as their sign, doubles rounded to zero or one:
    enough to see the shape of a row. *)
Definition formatting : Formatting := {|
  show_int := fun z => if z <? 0 then "-1"%string else "1"%string;
  show_fixed4 := fun x =>
    if (x <? 0.5)%float then "0.0000"%string else "1.0000"%string
|}.

(** A file system in which exactly the names without a [/] can be
    opened. *)
Definition file_system : FileSystem := {|
  can_open := fun filename =>
    (count_char (Ascii.ascii_of_nat 47) filename =? 0)%nat
|}.

End ToyFormat.

(** * Properties *)

(** ** The code on the small instance *)

Example toy_folds :
  createKFolds (C := Toy.collaborators) Toy.rows 4 42
  = Some [ [ [ [4; 1]; [3; 0]; [2; 1]; [1; 0] ]; [ [6; 0]; [5; 1] ] ];
           [ [ [6; 0]; [5; 1]; [2; 1]; [1; 0] ]; [ [4; 1]; [3; 0] ] ];
           [ [ [6; 0]; [5; 1]; [4; 1]; [3; 0]; [1; 0] ]; [ [2; 1] ] ];
           [ [ [6; 0]; [5; 1]; [4; 1]; [3; 0]; [2; 1] ]; [ [1; 0] ] ] ]%float.
Proof. vm_compute. reflexivity. Qed.

(** The two scenarios of the spec: 12 rows in 4 folds, 10 rows in 4 folds. *)
Example createKFolds_sizes_12_4 :
  option_map (List.map (fun fold_pair => length (validation_of fold_pair)))
    (createKFolds (C := Toy.collaborators) (replicate 12 [0%float]) 4 42)
  = Some [3; 3; 3; 3]%nat.
Proof. vm_compute. reflexivity. Qed.

Example createKFolds_sizes_10_4 :
  option_map (List.map (fun fold_pair => length (validation_of fold_pair)))
    (createKFolds (C := Toy.collaborators) (replicate 10 [0%float]) 4 42)
  = Some [3; 3; 2; 2]%nat.
Proof. vm_compute. reflexivity. Qed.

Example toy_validate :
  fst <$> validateSingleHyperparameter (C := Toy.collaborators)
            (R := Toy.runtime 2) Toy.cv (mkHyperparameterSet 3 5 "variance")
            "toy" Toy.start
  = Some (mkCVResult "toy" 3 0 0.5 (PrimFloat.sqrt 0.125) [0.5; 0.5; 0; 1])%float.
Proof. vm_compute. reflexivity. Qed.

Example toy_validate_1_2_4_threads :
  let result_with threads :=
    fst <$> validateSingleHyperparameter (C := Toy.collaborators)
              (R := Toy.runtime threads) Toy.cv HyperparameterSet_default
              "toy" Toy.start in
  result_with 1 = result_with 2 /\ result_with 2 = result_with 4
  /\ result_with 1
     = fst <$> validateSingleHyperparameter_sequential (C := Toy.collaborators)
                 Toy.cv HyperparameterSet_default "toy" Toy.start.
Proof. vm_compute. repeat split. Qed.

(** A set with which no tree can be built gives no result, in either
    loop. *)
Example toy_validate_fails :
  validateSingleHyperparameter (C := Toy.collaborators) (R := Toy.runtime 2)
    Toy.cv (mkHyperparameterSet (-9) (-5) "") "toy" Toy.start = None
  /\ validateSingleHyperparameter_sequential (C := Toy.collaborators)
       Toy.cv (mkHyperparameterSet (-9) (-5) "") "toy" Toy.start = None.
Proof. vm_compute. split; reflexivity. Qed.

(** The seeds of the four folds of a validator whose seed is the greatest
    [int]. *)
Example toy_seeds_wrap :
  (List.map tc_seed ∘ trained)
    <$> fold_loop_sequential (C := Toy.collaborators)
          (mkCrossValidator Toy.rows 4 2147483647 false)
          HyperparameterSet_default Toy.start
  = Some [2147483647; -2147483648; -2147483647; -2147483646].
Proof. vm_compute. reflexivity. Qed.

(** ** Loop rules *)

Lemma for_from_invariant {St : Type} (P : Z -> St -> Prop)
    (body : Z -> St -> option St) (n : nat) (lo : Z) (s : St) :
  P lo s ->
  (forall i t, lo <= i < lo + Z.of_nat n -> P i t ->
     exists t', body i t = Some t' /\ P (i + 1) t') ->
  exists s', for_from n lo body s = Some s' /\ P (lo + Z.of_nat n) s'.
Proof.
  revert lo s. induction n as [|n IH]; intros lo s Hinit Hstep.
  - exists s. split; [reflexivity|]. now replace (lo + Z.of_nat 0) with lo by lia.
  - destruct (Hstep lo s) as (t & Hb & Ht); [lia | assumption |].
    cbn [for_from]. rewrite Hb.
    destruct (IH (lo + 1) t Ht) as (s' & Hrun & Hs').
    + intros i u Hi Hu. apply Hstep; [lia | assumption].
    + exists s'. split; [assumption|].
      now replace (lo + Z.of_nat (S n)) with (lo + 1 + Z.of_nat n) by lia.
Qed.

Lemma for_range_invariant {St : Type} (P : Z -> St -> Prop)
    (body : Z -> St -> option St) (lo hi : Z) (s : St) :
  lo <= hi ->
  P lo s ->
  (forall i t, lo <= i < hi -> P i t ->
     exists t', body i t = Some t' /\ P (i + 1) t') ->
  exists s', for_range lo hi body s = Some s' /\ P hi s'.
Proof.
  intros Hle Hinit Hstep. unfold for_range.
  destruct (for_from_invariant P body (Z.to_nat (hi - lo)) lo s Hinit)
    as (s' & Hrun & Hs').
  - intros i t Hi. apply Hstep. lia.
  - exists s'. split; [assumption|].
    now replace hi with (lo + Z.of_nat (Z.to_nat (hi - lo))) by lia.
Qed.

(** ** Arithmetic of the blocks *)

Lemma block_size_len (n k i : Z) :
  0 <= n -> 0 < k ->
  block_size (Z.quot n k) (Z.rem n k) i = block_len n k i.
Proof.
  intros Hn Hk. unfold block_size, block_len.
  rewrite Z.quot_div_nonneg, Z.rem_mod_nonneg by lia.
  destruct (i <? n mod k); lia.
Qed.

Lemma block_start_0 (n k : Z) : 0 < k -> 0 <= n -> block_start n k 0 = 0.
Proof.
  intros Hk Hn. unfold block_start.
  pose proof (Z.mod_pos_bound n k Hk). lia.
Qed.

Lemma block_start_succ (n k i : Z) :
  block_start n k (i + 1) = block_start n k i + block_len n k i.
Proof.
  unfold block_start, block_len.
  destruct (Z.ltb_spec i (n mod k)); lia.
Qed.

Lemma block_start_k (n k : Z) : 0 < k -> block_start n k k = n.
Proof.
  intros Hk. unfold block_start.
  pose proof (Z.mod_pos_bound n k Hk).
  pose proof (Z.div_mod n k). lia.
Qed.

Lemma block_len_nonneg (n k i : Z) : 0 <= n -> 0 < k -> 0 <= block_len n k i.
Proof.
  intros Hn Hk. unfold block_len.
  pose proof (Z.div_pos n k Hn Hk). destruct (i <? n mod k); lia.
Qed.

Lemma block_start_mono (n k i j : Z) :
  0 <= n -> 0 < k -> 0 <= i -> i <= j ->
  block_start n k i <= block_start n k j.
Proof.
  intros Hn Hk Hi Hij. unfold block_start.
  pose proof (Z.div_pos n k Hn Hk). nia.
Qed.

Lemma block_start_bounds (n k i : Z) :
  0 <= n -> 0 < k -> 0 <= i <= k -> 0 <= block_start n k i <= n.
Proof.
  intros Hn Hk Hi.
  rewrite <- (block_start_0 n k Hk Hn) at 1.
  rewrite <- (block_start_k n k Hk) at 4.
  split; apply block_start_mono; lia.
Qed.

(** ** Rows of a data frame *)

Lemma df_row_lookup (d : DataFrame) (i : Z) :
  0 <= i < df_length d ->
  exists r, df_row d i = Some r /\ d !! Z.to_nat i = Some r.
Proof.
  intros Hi. unfold df_row, df_length in *.
  destruct (lookup_lt_is_Some_2 d (Z.to_nat i)) as [r Hr]; [lia|].
  exists r. split; [|assumption].
  replace (0 <=? i) with true by (symmetry; apply Z.leb_le; lia).
  replace (i <? Z.of_nat (length d)) with true by (symmetry; apply Z.ltb_lt; lia).
  exact Hr.
Qed.

Lemma rows_between_empty (d : DataFrame) (a : Z) : rows_between d a a = [].
Proof. unfold rows_between. now rewrite Z.sub_diag. Qed.

Lemma rows_between_snoc (d : DataFrame) (a i : Z) (r : DataVector) :
  0 <= a <= i -> d !! Z.to_nat i = Some r ->
  rows_between d a (i + 1) = rows_between d a i ++ [r].
Proof.
  intros Hai Hr. unfold rows_between.
  replace (Z.to_nat (i + 1 - a)) with (S (Z.to_nat (i - a))) by lia.
  apply take_S_r. rewrite lookup_drop.
  now replace (Z.to_nat a + Z.to_nat (i - a))%nat with (Z.to_nat i) by lia.
Qed.

Lemma rows_between_to_end (d : DataFrame) (a : Z) :
  0 <= a <= df_length d ->
  rows_between d a (df_length d) = drop (Z.to_nat a) d.
Proof.
  intros Ha. unfold rows_between, df_length in *.
  apply take_ge. rewrite length_drop. lia.
Qed.

Lemma rows_between_length (d : DataFrame) (a b : Z) :
  0 <= a <= b -> b <= df_length d ->
  Z.of_nat (length (rows_between d a b)) = b - a.
Proof.
  intros Hab Hb. unfold rows_between, df_length in *.
  rewrite length_take, length_drop. lia.
Qed.

Lemma rows_between_app (d : DataFrame) (a b c : Z) :
  0 <= a <= b -> b <= c ->
  rows_between d a b ++ rows_between d b c = rows_between d a c.
Proof.
  intros Hab Hbc. unfold rows_between.
  replace (Z.to_nat (c - a)) with (Z.to_nat (b - a) + Z.to_nat (c - b))%nat by lia.
  rewrite <- take_take_drop, drop_drop. do 3 f_equal. lia.
Qed.

(** ** The three inner loops of [createKFolds] *)

Lemma start_idx_loop (n k fold : Z) :
  0 <= n -> 0 < k -> 0 <= fold ->
  for_range 0 fold
    (fun i start_idx => Some (start_idx + block_size (Z.quot n k) (Z.rem n k) i)) 0
  = Some (block_start n k fold).
Proof.
  intros Hn Hk Hfold.
  destruct (for_range_invariant (fun i s => s = block_start n k i)
              (fun i start_idx =>
                 Some (start_idx + block_size (Z.quot n k) (Z.rem n k) i))
              0 fold 0) as (s & Hrun & ->); try assumption.
  - symmetry. now apply block_start_0.
  - intros i t Hi ->. eexists. split; [reflexivity|].
    rewrite block_size_len by lia. symmetry. apply block_start_succ.
Qed.

Lemma validation_loop (shuffled : DataFrame) (a b : Z) :
  0 <= a <= b -> b <= df_length shuffled ->
  for_range a b
    (fun i validation_data =>
       do r <- df_row shuffled i; Some (addRow validation_data r)) []
  = Some (rows_between shuffled a b).
Proof.
  intros Hab Hb.
  destruct (for_range_invariant
              (fun i v => a <= i /\ v = rows_between shuffled a i)
              (fun i validation_data =>
                 do r <- df_row shuffled i; Some (addRow validation_data r))
              a b []) as (s & Hrun & _ & ->); try tauto; try lia.
  - split; [lia|]. symmetry. apply rows_between_empty.
  - intros i t Hi [_ ->].
    destruct (df_row_lookup shuffled i) as (r & Hrow & Hr); [lia|].
    rewrite Hrow. eexists. split; [reflexivity|]. split; [lia|].
    unfold addRow. symmetry. apply rows_between_snoc; [lia | assumption].
Qed.

Lemma training_loop (shuffled : DataFrame) (a b : Z) :
  0 <= a <= b -> b <= df_length shuffled ->
  for_range 0 (df_length shuffled)
    (fun i training_data =>
       if (i <? a) || (i >=? b)
       then do r <- df_row shuffled i; Some (addRow training_data r)
       else Some training_data) []
  = Some (take (Z.to_nat a) shuffled ++ drop (Z.to_nat b) shuffled).
Proof.
  intros Hab Hb.
  destruct (for_range_invariant
              (fun i t => t = take (Z.to_nat (Z.min i a)) shuffled
                              ++ rows_between shuffled b (Z.max i b))
              (fun i training_data =>
                 if (i <? a) || (i >=? b)
                 then do r <- df_row shuffled i; Some (addRow training_data r)
                 else Some training_data)
              0 (df_length shuffled) []) as (s & Hrun & ->).
  - unfold df_length. lia.
  - replace (Z.min 0 a) with 0 by lia. replace (Z.max 0 b) with b by lia.
    now rewrite rows_between_empty.
  - intros i t Hi ->.
    destruct (df_row_lookup shuffled i) as (r & Hrow & Hr); [lia|].
    destruct (Z.ltb_spec i a) as [Hia|Hia]; cbn [orb].
    + rewrite Hrow. eexists. split; [reflexivity|]. unfold addRow.
      replace (Z.max i b) with b by lia. replace (Z.max (i + 1) b) with b by lia.
      rewrite rows_between_empty, !app_nil_r.
      replace (Z.min i a) with i by lia. replace (Z.min (i + 1) a) with (i + 1) by lia.
      replace (Z.to_nat (i + 1)) with (S (Z.to_nat i)) by lia.
      symmetry. now apply take_S_r.
    + destruct (Z.geb_spec i b) as [Hib|Hib].
      * rewrite Hrow. eexists. split; [reflexivity|]. unfold addRow.
        replace (Z.min i a) with a by lia. replace (Z.min (i + 1) a) with a by lia.
        replace (Z.max i b) with i by lia. replace (Z.max (i + 1) b) with (i + 1) by lia.
        rewrite (rows_between_snoc shuffled b i r) by (try lia; assumption).
        now rewrite app_assoc.
      * eexists. split; [reflexivity|].
        replace (Z.min i a) with a by lia. replace (Z.min (i + 1) a) with a by lia.
        replace (Z.max i b) with b by lia. replace (Z.max (i + 1) b) with b by lia.
        reflexivity.
  - refine (eq_trans Hrun _). f_equal.
    replace (Z.min (df_length shuffled) a) with a by lia.
    replace (Z.max (df_length shuffled) b) with (df_length shuffled) by lia.
    rewrite rows_between_to_end by lia. reflexivity.
Qed.

(** ** [createKFolds] *)

Section Folds.
Context {C : Collaborators}.

Lemma createKFolds_body_ok (shuffled : DataFrame) (k fold : Z)
    (folds : list (list DataFrame)) :
  0 < k -> 0 <= fold < k ->
  createKFolds_body shuffled (Z.quot (df_length shuffled) k)
    (Z.rem (df_length shuffled) k) fold folds
  = Some (folds ++ [fold_pair_of shuffled k fold]).
Proof.
  intros Hk Hfold.
  assert (Hn : 0 <= df_length shuffled) by (unfold df_length; lia).
  pose proof (block_start_bounds _ k fold Hn Hk ltac:(lia)) as Hs.
  pose proof (block_start_bounds _ k (fold + 1) Hn Hk ltac:(lia)) as He.
  pose proof (block_len_nonneg _ k fold Hn Hk) as Hl.
  rewrite block_start_succ in He.
  unfold createKFolds_body.
  rewrite start_idx_loop, block_size_len by lia.
  rewrite validation_loop by lia.
  rewrite training_loop by lia.
  reflexivity.
Qed.

(** The fold set is the list of the [k] block pairs, in block order. *)
Lemma createKFolds_blocks (data : DataFrame) (k seed : Z) :
  0 < k ->
  createKFolds data k seed
  = Some (fold_pair_of (sample data (-1) seed false) k <$> seqZ 0 k).
Proof.
  intros Hk. unfold createKFolds.
  set (shuffled := sample data (-1) seed false).
  replace (k =? 0) with false by (symmetry; apply Z.eqb_neq; lia).
  destruct (for_range_invariant
              (fun i folds => 0 <= i /\ folds = fold_pair_of shuffled k <$> seqZ 0 i)
              (createKFolds_body shuffled (Z.quot (df_length shuffled) k)
                 (Z.rem (df_length shuffled) k))
              0 k []) as (folds & Hrun & _ & ->).
  - lia.
  - split; [lia | reflexivity].
  - intros i folds Hi [_ ->].
    rewrite createKFolds_body_ok by lia.
    eexists. split; [reflexivity|]. split; [lia|].
    rewrite (seqZ_app 0 i 1), fmap_app by lia. reflexivity.
  - exact Hrun.
Qed.

Lemma fold_pair_lookup (shuffled : DataFrame) (k i : Z) :
  0 <= i < k ->
  (fold_pair_of shuffled k <$> seqZ 0 k) !! Z.to_nat i
  = Some (fold_pair_of shuffled k i).
Proof.
  intros Hi. rewrite list_lookup_fmap, lookup_seqZ_lt by lia.
  cbn. do 2 f_equal. lia.
Qed.

Lemma validation_blocks_concat (shuffled : DataFrame) (k : Z) (m : nat) :
  0 < k -> Z.of_nat m <= k ->
  concat (validation_block shuffled k <$> seqZ 0 (Z.of_nat m))
  = take (Z.to_nat (block_start (df_length shuffled) k (Z.of_nat m))) shuffled.
Proof.
  intros Hk. set (n := df_length shuffled).
  assert (Hn : 0 <= n) by (unfold n, df_length; lia).
  induction m as [|m IH]; intros Hm.
  - cbn. rewrite block_start_0 by lia. reflexivity.
  - rewrite seqZ_S, fmap_app, concat_app, IH by lia.
    cbn [fmap list_fmap concat]. rewrite app_nil_r, Z.add_0_l.
    replace (Z.of_nat (S m)) with (Z.of_nat m + 1) by lia.
    unfold validation_block. fold n.
    rewrite <- block_start_succ.
    pose proof (block_start_bounds n k (Z.of_nat m) Hn Hk ltac:(lia)) as Hs.
    pose proof (block_start_mono n k (Z.of_nat m) (Z.of_nat m + 1) Hn Hk
                  ltac:(lia) ltac:(lia)) as He.
    unfold rows_between. rewrite take_take_drop.
    f_equal. lia.
Qed.

Lemma training_validation_all (shuffled : DataFrame) (k i : Z) :
  0 < k -> 0 <= i < k ->
  training_rows shuffled k i ++ validation_block shuffled k i ≡ₚ shuffled.
Proof.
  intros Hk Hi. set (n := df_length shuffled).
  assert (Hn : 0 <= n) by (unfold n, df_length; lia).
  unfold training_rows, validation_block. fold n.
  pose proof (block_start_bounds n k i Hn Hk ltac:(lia)) as Hs.
  pose proof (block_start_bounds n k (i + 1) Hn Hk ltac:(lia)) as He.
  pose proof (block_len_nonneg n k i Hn Hk) as Hl.
  rewrite block_start_succ in He.
  rewrite <- app_assoc.
  rewrite (Permutation_app_comm (drop _ _)).
  rewrite <- (rows_between_to_end shuffled (block_start n k i + block_len n k i))
    by (fold n; lia).
  rewrite rows_between_app by (fold n; lia).
  rewrite rows_between_to_end by (fold n; lia).
  now rewrite take_drop.
Qed.

End Folds.

(** ** The fold loop under a schedule *)

Lemma write_scores_length (score : Z -> float) (fs : list Z) (s : list float) :
  length (write_scores score fs s) = length s.
Proof.
  revert s. induction fs as [|f fs IH]; intros s; [reflexivity|].
  cbn. unfold write_scores in IH. now rewrite IH, length_insert.
Qed.

(** A position holds the score of its fold once that fold has run, and
    its old value otherwise. *)
Lemma write_scores_lookup (score : Z -> float) (fs : list Z) (s : list float)
    (i : nat) :
  Forall (fun f => 0 <= f) fs -> (i < length s)%nat ->
  write_scores score fs s !! i
  = if bool_decide (Z.of_nat i ∈ fs) then Some (score (Z.of_nat i)) else s !! i.
Proof.
  revert s. induction fs as [|f fs IH]; intros s Hfs Hi.
  - cbn. reflexivity.
  - apply Forall_cons in Hfs as [Hf Hfs]. cbn.
    unfold write_scores in IH. rewrite IH by (try rewrite length_insert; assumption).
    destruct (decide (Z.of_nat i ∈ fs)) as [Hin|Hin].
    + rewrite !bool_decide_eq_true_2; [reflexivity | | assumption].
      now apply list_elem_of_further.
    + rewrite (bool_decide_eq_false_2 _ Hin).
      destruct (decide (Z.of_nat i = f)) as [<-|Hne].
      * rewrite bool_decide_eq_true_2 by apply list_elem_of_here.
        rewrite Nat2Z.id. now apply list_lookup_insert_eq.
      * rewrite bool_decide_eq_false_2.
        -- apply list_lookup_insert_ne. lia.
        -- intros [Heq|?]%elem_of_cons; [lia | contradiction].
Qed.

(** Once every fold has run exactly once, in whatever order, the score
    vector is the list of the fold scores in fold order. *)
Lemma write_scores_permutation (score : Z -> float) (fs : list Z) (k : Z)
    (s : list float) :
  fs ≡ₚ seqZ 0 k -> Z.of_nat (length s) = k ->
  write_scores score fs s = score <$> seqZ 0 k.
Proof.
  intros Hperm Hlen.
  assert (Hin : forall f, f ∈ fs <-> 0 <= f < k).
  { intros f. rewrite Hperm, elem_of_seqZ. lia. }
  apply list_eq. intros i.
  destruct (decide (i < length s)%nat) as [Hi|Hi].
  - rewrite write_scores_lookup; [| |assumption].
    + rewrite bool_decide_eq_true_2 by (apply Hin; lia).
      rewrite list_lookup_fmap, lookup_seqZ_lt by lia. reflexivity.
    + apply Forall_forall. intros f Hf%Hin. lia.
  - rewrite !lookup_ge_None_2; [reflexivity | |].
    + rewrite length_fmap, length_seqZ. lia.
    + rewrite write_scores_length. lia.
Qed.

(** A sequential [for] is the schedule that gives every iteration, in
    increasing order, to thread 0. *)
Lemma for_from_run_schedule (body : Z -> Z -> region -> option region)
    (n : nat) (lo : Z) (st : region) :
  for_from n lo (body 0) st
  = run_schedule body ((fun f => (0, f)) <$> seqZ lo (Z.of_nat n)) st.
Proof.
  revert lo st. induction n as [|n IH]; intros lo st; [reflexivity|].
  rewrite seqZ_cons by lia. cbn [for_from fmap list_fmap run_schedule].
  destruct (body 0 lo st) as [st'|]; [|reflexivity].
  rewrite IH. do 3 f_equal; lia.
Qed.

(** ** Machine integers *)

Lemma int_wrap_range (z : Z) : - 2 ^ 31 <= int_wrap z < 2 ^ 31.
Proof.
  unfold int_wrap. pose proof (Z.mod_pos_bound (z + 2 ^ 31) (2 ^ 32)). lia.
Qed.

Lemma int_wrap_id (z : Z) : - 2 ^ 31 <= z < 2 ^ 31 -> int_wrap z = z.
Proof. intros Hz. unfold int_wrap. rewrite Z.mod_small; lia. Qed.

Lemma int_wrap_congruent (z : Z) : (int_wrap z - z) mod 2 ^ 32 = 0.
Proof.
  unfold int_wrap.
  rewrite (Z.mod_eq (z + 2 ^ 31) (2 ^ 32)) by lia.
  replace (z + 2 ^ 31 - 2 ^ 32 * ((z + 2 ^ 31) / 2 ^ 32) - 2 ^ 31 - z)
    with (- ((z + 2 ^ 31) / 2 ^ 32) * 2 ^ 32) by lia.
  apply Z.mod_mul. lia.
Qed.

(** ** Lists of optional values *)

Lemma mapM_default {A B : Type} (f : A -> option B) (d : B) (l : list A)
    (k : list B) :
  mapM f l = Some k -> (fun x => default d (f x)) <$> l = k.
Proof.
  intros H%mapM_Some. induction H as [|x y l k Hxy _ IH]; [reflexivity|].
  cbn. now rewrite Hxy, IH.
Qed.

Lemma mapM_lookup {A B : Type} (f : A -> option B) (l : list A) (k : list B)
    (i : nat) (x : A) :
  mapM f l = Some k -> l !! i = Some x ->
  exists y, f x = Some y /\ k !! i = Some y.
Proof.
  intros H%mapM_Some Hx.
  destruct (Forall2_lookup_l _ _ _ _ _ H Hx) as (y & Hy & Hxy).
  exists y. now split.
Qed.

Lemma mapM_Permutation_is_Some {A B : Type} (f : A -> option B) (l1 l2 : list A) :
  l1 ≡ₚ l2 -> is_Some (mapM f l1) -> is_Some (mapM f l2).
Proof. rewrite !mapM_is_Some. now intros ->. Qed.

Lemma mapM_Permutation_None {A B : Type} (f : A -> option B) (l1 l2 : list A) :
  l1 ≡ₚ l2 -> mapM f l1 = None -> mapM f l2 = None.
Proof.
  intros Hperm Hnone. apply eq_None_not_Some. intros Hsome.
  apply (mapM_Permutation_is_Some f l2 l1) in Hsome; [|now symmetry].
  rewrite Hnone in Hsome. now destruct Hsome.
Qed.

Section FoldLoop.
Context {C : Collaborators}.
Variables (cv : CrossValidator) (params : HyperparameterSet).

Lemma fold_set_length : length (fold_set_of cv) = Z.to_nat (k_folds_ cv).
Proof. unfold fold_set_of. now rewrite length_fmap, length_seqZ. Qed.

(** An iteration in range ends with a state exactly when its fold gets a
    score. *)
Lemma fold_body_ok (num_threads tid fold : Z) (st : region) :
  0 <= fold < k_folds_ cv ->
  Z.of_nat (length (scores st)) = k_folds_ cv ->
  fold_body cv params (fold_set_of cv) num_threads tid fold st
  = match score_of_fold cv params fold with
    | Some fold_accuracy =>
        Some (mkRegion
                (<[Z.to_nat fold := fold_accuracy]> (scores st))
                (trained st ++ [call_of_fold cv params fold])
                (master_block num_threads tid (proc st)))
    | None => None
    end.
Proof.
  intros Hfold Hlen. unfold fold_body.
  rewrite fold_set_length, Hlen, Z2Nat.id by lia.
  replace (0 <=? fold) with true by (symmetry; apply Z.leb_le; lia).
  replace (fold <? k_folds_ cv) with true by (symmetry; apply Z.ltb_lt; lia).
  cbn [andb negb]. unfold fold_set_of. rewrite fold_pair_lookup by assumption.
  unfold score_of_fold, call_accuracy, call_of_fold, fold_pair_of.
  cbn [lookup list_lookup].
  change (mkTreeCall ?d (regression_ cv) (loss params) (-1) (max_depth params)
            (-1) (min_obs params) (-1)%float (int_add (random_seed_ cv) fold))
    with (fold_call cv params d fold).
  destruct (DecisionTree_new _) as [tree|]; [|reflexivity].
  destruct (predict tree _) as [predictions|]; [|reflexivity].
  destruct (col _ _) as [true_labels|]; [|reflexivity].
  destruct (accuracy _ _) as [fold_accuracy|]; reflexivity.
Qed.

(** A schedule over folds in range runs to its end exactly when each of
    its folds gets a score: the scores are then written at the fold
    positions, one constructor call is logged per iteration, and only the
    master blocks touch the process state. *)
Lemma run_schedule_ok (num_threads : Z) (sched : list (Z * Z)) (st : region) :
  Forall (fun tf => 0 <= snd tf < k_folds_ cv) sched ->
  Z.of_nat (length (scores st)) = k_folds_ cv ->
  run_schedule (fold_body cv params (fold_set_of cv) num_threads) sched st
  = match mapM (score_of_fold cv params) (sched.*2) with
    | Some _ =>
        Some (mkRegion
                (write_scores (score_or_zero cv params) (sched.*2) (scores st))
                (trained st ++ (call_of_fold cv params <$> sched.*2))
                (master_blocks num_threads sched (proc st)))
    | None => None
    end.
Proof.
  revert st. induction sched as [|[tid fold] sched IH]; intros st Hsched Hlen.
  - cbn. rewrite app_nil_r. now destruct st.
  - apply Forall_cons in Hsched as [Hfold Hsched]. cbn in Hfold.
    cbn [run_schedule]. rewrite fold_body_ok by assumption.
    cbn [fmap list_fmap snd mapM].
    change (list_fmap (Z * Z)%type Z snd sched) with (sched.*2).
    unfold score_or_zero at 1.
    destruct (score_of_fold cv params fold) as [fold_accuracy|] eqn:Hscore;
      [|reflexivity].
    rewrite IH; [|assumption | cbn; rewrite length_insert; assumption].
    cbn. destruct (mapM _ _); [|reflexivity].
    cbn. rewrite Hscore. cbn. now rewrite <- app_assoc.
Qed.

Lemma region_init_length (p : process) :
  0 < k_folds_ cv ->
  Z.of_nat (length (scores (region_init cv p))) = k_folds_ cv.
Proof. intros Hk. cbn. rewrite length_replicate. lia. Qed.

(** Every fold gets a score exactly when the scores of all folds can be
    collected. *)
Lemma folds_succeed_mapM :
  folds_succeed cv params
  <-> is_Some (mapM (score_of_fold cv params) (seqZ 0 (k_folds_ cv))).
Proof.
  rewrite mapM_is_Some, Forall_forall. unfold folds_succeed.
  split; intros H i Hi.
  - apply H. apply elem_of_seqZ in Hi. lia.
  - apply H. apply elem_of_seqZ. lia.
Qed.

Lemma fold_scores_collected (fold_scores : list float) :
  mapM (score_of_fold cv params) (seqZ 0 (k_folds_ cv)) = Some fold_scores ->
  score_or_zero cv params <$> seqZ 0 (k_folds_ cv) = fold_scores.
Proof. apply mapM_default. Qed.

Lemma fold_loop_parallel_ok {R : OmpRuntime} (p : process) :
  0 < k_folds_ cv -> fair_runtime R (k_folds_ cv) ->
  let r := regions p in
  fold_loop_parallel cv params p
  = match mapM (score_of_fold cv params) (seqZ 0 (k_folds_ cv)) with
    | Some fold_scores =>
        Some (mkRegion fold_scores
                (call_of_fold cv params <$> (omp_schedule r (k_folds_ cv)).*2)
                (master_blocks (omp_get_num_threads r)
                   (omp_schedule r (k_folds_ cv))
                   (mkProcess (completed_folds p) (console p) (S r))))
    | None => None
    end.
Proof.
  intros Hk Hfair r. unfold fold_loop_parallel.
  rewrite createKFolds_blocks by assumption. fold (fold_set_of cv).
  replace (k_folds_ cv <? 0) with false by (symmetry; apply Z.ltb_ge; lia).
  fold r. rewrite run_schedule_ok.
  - destruct (mapM _ (seqZ 0 (k_folds_ cv))) as [fold_scores|] eqn:Hall.
    + destruct (mapM_Permutation_is_Some (score_of_fold cv params)
                  (seqZ 0 (k_folds_ cv)) ((omp_schedule r (k_folds_ cv)).*2))
        as [ss ->]; [symmetry; apply Hfair | eauto |].
      rewrite (write_scores_permutation _ _ (k_folds_ cv)).
      * now rewrite (fold_scores_collected _ Hall).
      * apply Hfair.
      * now apply region_init_length.
    + rewrite (mapM_Permutation_None (score_of_fold cv params)
                 (seqZ 0 (k_folds_ cv))); [reflexivity | | exact Hall].
      symmetry. apply Hfair.
  - apply Forall_forall. intros [t f] Hin. cbn.
    assert (Hf : f ∈ (omp_schedule r (k_folds_ cv)).*2).
    { apply list_elem_of_fmap. now exists (t, f). }
    rewrite (Hfair r), elem_of_seqZ in Hf. lia.
  - now apply region_init_length.
Qed.

Lemma fold_loop_sequential_ok (p : process) :
  0 < k_folds_ cv ->
  fold_loop_sequential cv params p
  = match mapM (score_of_fold cv params) (seqZ 0 (k_folds_ cv)) with
    | Some fold_scores =>
        Some (mkRegion fold_scores
                (call_of_fold cv params <$> seqZ 0 (k_folds_ cv))
                (master_blocks 1 ((fun f => (0, f)) <$> seqZ 0 (k_folds_ cv)) p))
    | None => None
    end.
Proof.
  intros Hk. unfold fold_loop_sequential.
  rewrite createKFolds_blocks by assumption. fold (fold_set_of cv).
  replace (k_folds_ cv <? 0) with false by (symmetry; apply Z.ltb_ge; lia).
  unfold for_range.
  rewrite (for_from_run_schedule (fold_body cv params (fold_set_of cv) 1)).
  rewrite Z.sub_0_r, Z2Nat.id by lia.
  assert (Hsnd : ((fun f => (0, f)) <$> seqZ 0 (k_folds_ cv)).*2
                 = seqZ 0 (k_folds_ cv)).
  { rewrite <- list_fmap_compose. apply list_fmap_id. }
  rewrite run_schedule_ok.
  - rewrite Hsnd.
    destruct (mapM _ _) as [fold_scores|] eqn:Hall; [|reflexivity].
    rewrite (write_scores_permutation _ _ (k_folds_ cv)); try reflexivity.
    + now rewrite (fold_scores_collected _ Hall).
    + now apply region_init_length.
  - apply Forall_forall. intros [t f] (g & [= -> ->] & Hg)%list_elem_of_fmap.
    cbn. apply elem_of_seqZ in Hg. lia.
  - now apply region_init_length.
Qed.

End FoldLoop.

(** ** The order of doubles *)

Ltac order_cases :=
  repeat match goal with
    | H : context [Z.compare ?x ?y] |- _ => destruct (Z.compare_spec x y); try subst
    | |- context [Z.compare ?x ?y] => destruct (Z.compare_spec x y); try subst
    | H : context [Pos.compare ?x ?y] |- _ => destruct (Pos.compare_spec x y); try subst
    | |- context [Pos.compare ?x ?y] => destruct (Pos.compare_spec x y); try subst
    end.

Lemma SFcompare_Lt_trans (a b c : spec_float) (o : comparison) :
  SFcompare a b = Some Lt -> SFcompare b c = Some o -> o <> Gt ->
  SFcompare a c = Some Lt.
Proof.
  destruct a as [sa|sa| |sa ma ea], b as [sb|sb| |sb mb eb],
    c as [sc|sc| |sc mc ec]; cbn;
    repeat match goal with s : bool |- _ => destruct s end;
    try discriminate; try reflexivity;
    try (intros _ [= <-] Ho; congruence);
    change (Pos.compare_cont Eq) with Pos.compare;
    intros H1 [= H2] Ho; subst o; order_cases; cbn in *;
    try discriminate; try reflexivity; try congruence; try lia.
Qed.

Lemma SFcompare_irrefl (a : spec_float) : SFcompare a a <> Some Lt.
Proof.
  destruct a as [s|s| |s m e]; cbn; try destruct s; try discriminate;
    rewrite Z.compare_refl; change (Pos.compare_cont Eq) with Pos.compare;
    rewrite Pos.compare_refl; discriminate.
Qed.

(** [x > x] is false, also for a NaN. *)
Lemma float_ltb_irrefl (x : float) : (x <? x)%float = false.
Proof.
  rewrite ltb_spec. unfold SFltb.
  pose proof (SFcompare_irrefl (Prim2SF x)).
  destruct (SFcompare _ _) as [[]|]; congruence.
Qed.

Lemma float_ltb_leb_trans (x y z : float) :
  (x <? y)%float = true -> (y <=? z)%float = true -> (x <? z)%float = true.
Proof.
  rewrite !ltb_spec, leb_spec. unfold SFltb, SFleb.
  destruct (SFcompare (Prim2SF x) (Prim2SF y)) as [[]|] eqn:Hxy; try discriminate.
  destruct (SFcompare (Prim2SF y) (Prim2SF z)) as [[]|] eqn:Hyz; try discriminate;
    intros _ _; now rewrite (SFcompare_Lt_trans _ _ _ _ Hxy Hyz).
Qed.

Lemma float_ltb_trans (x y z : float) :
  (x <? y)%float = true -> (y <? z)%float = true -> (x <? z)%float = true.
Proof.
  rewrite !ltb_spec. unfold SFltb.
  destruct (SFcompare (Prim2SF x) (Prim2SF y)) as [[]|] eqn:Hxy; try discriminate.
  destruct (SFcompare (Prim2SF y) (Prim2SF z)) as [[]|] eqn:Hyz; try discriminate;
    intros _ _; now rewrite (SFcompare_Lt_trans _ _ _ _ Hxy Hyz).
Qed.

Lemma SFcompare_refl (a : spec_float) :
  a <> S754_nan -> SFcompare a a = Some Eq.
Proof.
  destruct a as [s|s| |s m e]; cbn; intros Hnan; try congruence;
    try (now destruct s).
  rewrite Z.compare_refl. change (Pos.compare_cont Eq) with Pos.compare.
  rewrite Pos.compare_refl. now destruct s.
Qed.

Lemma is_nan_Prim2SF (x : float) :
  PrimFloat.is_nan x = true <-> Prim2SF x = S754_nan.
Proof.
  unfold PrimFloat.is_nan. rewrite FloatAxioms.eqb_spec. unfold SFeqb. split.
  - intros Hnan. destruct (Prim2SF x) as [s|s| |s m e] eqn:Hx; try reflexivity;
      rewrite SFcompare_refl in Hnan by discriminate; discriminate.
  - intros ->. reflexivity.
Qed.

Lemma not_nan_Prim2SF (x : float) :
  PrimFloat.is_nan x = false -> Prim2SF x <> S754_nan.
Proof.
  intros Hx Hnan. apply is_nan_Prim2SF in Hnan. congruence.
Qed.

(** Two numbers are comparable, and the two comparisons are opposite. *)
Lemma SFcompare_opp (a b : spec_float) :
  a <> S754_nan -> b <> S754_nan ->
  exists c, SFcompare a b = Some c /\ SFcompare b a = Some (CompOpp c).
Proof.
  destruct a as [sa|sa| |sa ma ea], b as [sb|sb| |sb mb eb]; cbn;
    intros Ha Hb; try congruence;
    repeat match goal with s : bool |- _ => destruct s end;
    try (eexists; split; reflexivity);
    change (Pos.compare_cont Eq) with Pos.compare;
    rewrite (Z.compare_antisym ea eb);
    destruct (ea ?= eb); cbn;
    try (eexists; split; reflexivity);
    rewrite (Pos.compare_antisym ma mb);
    destruct (ma ?= mb)%positive; cbn; eexists; split; reflexivity.
Qed.

(** Among numbers, "not greater" is "at most", and "not at least" is
    "less". *)
Lemma float_leb_of_not_ltb (x y : float) :
  PrimFloat.is_nan x = false -> PrimFloat.is_nan y = false ->
  (x <? y)%float = false -> (y <=? x)%float = true.
Proof.
  intros Hx%not_nan_Prim2SF Hy%not_nan_Prim2SF.
  rewrite ltb_spec, leb_spec. unfold SFltb, SFleb.
  destruct (SFcompare_opp _ _ Hx Hy) as (c & -> & ->).
  now destruct c.
Qed.

Lemma float_ltb_of_not_leb (x y : float) :
  PrimFloat.is_nan x = false -> PrimFloat.is_nan y = false ->
  (x <=? y)%float = false -> (y <? x)%float = true.
Proof.
  intros Hx%not_nan_Prim2SF Hy%not_nan_Prim2SF.
  rewrite ltb_spec, leb_spec. unfold SFltb, SFleb.
  destruct (SFcompare_opp _ _ Hx Hy) as (c & -> & ->).
  now destruct c.
Qed.

(** Nothing is greater than a NaN, and a NaN is greater than nothing. *)
Lemma float_ltb_nan_l (x y : float) :
  PrimFloat.is_nan x = true -> (x <? y)%float = false.
Proof.
  intros Hx. apply (proj1 (is_nan_Prim2SF x)) in Hx.
  rewrite ltb_spec. unfold SFltb. now rewrite Hx.
Qed.

Lemma float_ltb_not_nan_r (x y : float) :
  (x <? y)%float = true -> PrimFloat.is_nan y = false.
Proof.
  rewrite ltb_spec. unfold SFltb. intros Hlt.
  apply not_true_is_false. intros Hy. apply (proj1 (is_nan_Prim2SF y)) in Hy.
  rewrite Hy in Hlt. now destruct (Prim2SF x).
Qed.

(** ** The scan of [getBestParams] *)

(** The scan keeps, over the results seen so far, the first result of
    greatest mean. *)
Lemma best_scan_first_maximum (post pre : list CVResult) (i : nat) (r : CVResult) :
  first_maximum (pre ++ post) (length pre) i r ->
  exists i' r',
    best_scan post (mean_cv_accuracy r, cv_max_depth r)
    = (mean_cv_accuracy r', cv_max_depth r')
    /\ first_maximum (pre ++ post) (length (pre ++ post)) i' r'.
Proof.
  revert pre i r. induction post as [|x post IH]; intros pre i r Hmax.
  - exists i, r. split; [reflexivity|]. now rewrite app_nil_r in *.
  - destruct Hmax as (Hi & Hall & Hbefore).
    assert (Hx : (pre ++ x :: post) !! length pre = Some x)
      by apply list_lookup_middle, eq_refl.
    replace (pre ++ x :: post) with ((pre ++ [x]) ++ post) in *
      by now rewrite <- app_assoc.
    cbn [best_scan fold_left fst].
    destruct (mean_cv_accuracy r <? mean_cv_accuracy x)%float eqn:Hlt.
    + apply (IH (pre ++ [x]) (length pre) x). repeat split.
      * exact Hx.
      * intros j r' Hj Hr'. rewrite length_app in Hj. cbn in Hj.
        destruct (decide (j = length pre)) as [->|Hne].
        -- rewrite Hx in Hr'. injection Hr' as <-. apply float_ltb_irrefl.
        -- apply not_true_is_false. intros Hxr'.
           pose proof (Hall j r' ltac:(lia) Hr') as Hcontra.
           rewrite (float_ltb_trans _ _ _ Hlt Hxr') in Hcontra. discriminate.
      * intros j r' Hj Hr'. apply not_true_is_false. intros Hxr'.
        pose proof (Hall j r' Hj Hr') as Hcontra.
        rewrite (float_ltb_leb_trans _ _ _ Hlt Hxr') in Hcontra. discriminate.
    + apply (IH (pre ++ [x]) i r). repeat split.
      * exact Hi.
      * intros j r' Hj Hr'. rewrite length_app in Hj. cbn in Hj.
        destruct (decide (j = length pre)) as [->|Hne].
        -- rewrite Hx in Hr'. now injection Hr' as <-.
        -- apply (Hall j r'); [lia | assumption].
      * exact Hbefore.
Qed.

(** The depth [getBestParams] returns is that of the first result of
    greatest mean. *)
Lemma getBestParams_scan (cv_results : list CVResult) (p : process) :
  cv_results <> [] ->
  exists (i : nat) (r : CVResult),
    first_maximum cv_results (length cv_results) i r
    /\ fst (getBestParams cv_results p)
       = HyperparameterSet_of_depth (cv_max_depth r).
Proof.
  intros Hne. destruct cv_results as [|first rest]; [congruence|].
  destruct (best_scan_first_maximum (first :: rest) [] 0 first)
    as (i & r & Hscan & Hmax).
  { repeat split; [intros; cbn in *; lia..]. }
  exists i, r. split; [exact Hmax|].
  cbn [getBestParams fst]. now rewrite Hscan.
Qed.

Lemma best_scan_nan (cv_results : list CVResult) (best_score : float)
    (best_depth : Z) :
  PrimFloat.is_nan best_score = true ->
  best_scan cv_results (best_score, best_depth) = (best_score, best_depth).
Proof.
  intros Hnan. induction cv_results as [|r rest IH]; [reflexivity|].
  cbn [best_scan fold_left fst]. now rewrite float_ltb_nan_l.
Qed.

Lemma best_scan_not_nan (cv_results : list CVResult) (best : float * Z) :
  PrimFloat.is_nan (fst best) = false ->
  PrimFloat.is_nan (fst (best_scan cv_results best)) = false.
Proof.
  revert best. induction cv_results as [|r rest IH]; intros best Hbest;
    [exact Hbest|].
  cbn [best_scan fold_left]. apply IH.
  destruct (fst best <? mean_cv_accuracy r)%float eqn:Hlt; [|exact Hbest].
  cbn [fst]. now apply float_ltb_not_nan_r in Hlt.
Qed.

(** The score and depth [getBestParams] ends with are those of the first
    result of greatest mean. *)
Lemma getBestParams_chosen (first : CVResult) (rest : list CVResult) :
  exists (i : nat) (r : CVResult),
    first_maximum (first :: rest) (length (first :: rest)) i r
    /\ best_scan (first :: rest) (mean_cv_accuracy first, cv_max_depth first)
       = (mean_cv_accuracy r, cv_max_depth r).
Proof.
  destruct (best_scan_first_maximum (first :: rest) [] 0 first)
    as (i & r & Hscan & Hmax).
  { repeat split; [intros; cbn in *; lia..]. }
  exists i, r. now split.
Qed.

(** ** The two sums of [calculateMeanStd] *)

Lemma sum_first_ext (n : nat) (t1 t2 : nat -> float) :
  (forall i, (i < n)%nat -> t1 i = t2 i) -> sum_first n t1 = sum_first n t2.
Proof.
  induction n as [|n IH]; intros Heq; [reflexivity|].
  cbn. rewrite IH by (intros; apply Heq; lia).
  now rewrite Heq by lia.
Qed.

(** A loop that adds [g score] for each score, in the order of the vector,
    computes the indexed sum of the terms [g scores[i]]. *)
Lemma fold_left_sum_first (g : float -> float) (scores : list float) :
  fold_left (fun acc score => (acc + g score)%float) scores 0%float
  = sum_first (length scores) (fun i => g (score_at scores i)).
Proof.
  induction scores as [|x scores IH] using rev_ind; [reflexivity|].
  rewrite fold_left_app, length_app, Nat.add_comm. cbn.
  rewrite IH. f_equal.
  - apply sum_first_ext. intros i Hi. unfold score_at.
    now rewrite lookup_app_l.
  - unfold score_at. now rewrite list_lookup_middle.
Qed.

(** The size of a vector, converted to [double], is the double nearest
    to it. *)
Lemma size_to_double_count (scores : list float) :
  Z.of_nat (length scores) < 2 ^ 63 ->
  size_to_double scores = double_of_count (length scores).
Proof.
  intros Hlen. unfold size_to_double, double_of_count.
  rewrite <- (SF2Prim_Prim2SF (of_uint63 _)), of_uint63_spec.
  rewrite Uint63.of_Z_spec, Z.mod_small; [reflexivity|].
  change Uint63.wB with (2 ^ 63). lia.
Qed.

(** ** One cross-validation, and the grid search *)

Section Validation.
Context {C : Collaborators} {R : OmpRuntime}.
Variables (cv : CrossValidator) (dataset_name : string).
Hypothesis k_positive : 0 < k_folds_ cv.
Hypothesis fair : fair_runtime R (k_folds_ cv).

(** The result is the one the spec describes, from any process state;
    there is none exactly when some fold has no score. *)
Lemma validate_ok (params : HyperparameterSet) (p : process) :
  fst <$> validateSingleHyperparameter cv params dataset_name p
  = cv_result_of cv params dataset_name.
Proof.
  unfold validateSingleHyperparameter, cv_result_of.
  rewrite fold_loop_parallel_ok by assumption.
  now destruct (mapM _ _).
Qed.

Lemma validate_sequential_ok (params : HyperparameterSet) (p : process) :
  fst <$> validateSingleHyperparameter_sequential cv params dataset_name p
  = cv_result_of cv params dataset_name.
Proof.
  unfold validateSingleHyperparameter_sequential, cv_result_of.
  rewrite fold_loop_sequential_ok by assumption.
  now destruct (mapM _ _).
Qed.

Lemma cv_result_of_is_Some (params : HyperparameterSet) :
  is_Some (cv_result_of cv params dataset_name) <-> folds_succeed cv params.
Proof.
  rewrite folds_succeed_mapM. unfold cv_result_of.
  destruct (mapM _ _); split; intros [x Hx]; try discriminate; eauto.
Qed.

Lemma validate_is_Some (params : HyperparameterSet) (p : process) :
  is_Some (validateSingleHyperparameter cv params dataset_name p)
  <-> folds_succeed cv params.
Proof.
  rewrite <- cv_result_of_is_Some, <- (validate_ok params p).
  symmetry. apply fmap_is_Some.
Qed.

Lemma validate_sequential_is_Some (params : HyperparameterSet) (p : process) :
  is_Some (validateSingleHyperparameter_sequential cv params dataset_name p)
  <-> folds_succeed cv params.
Proof.
  rewrite <- cv_result_of_is_Some, <- (validate_sequential_ok params p).
  symmetry. apply fmap_is_Some.
Qed.




End Validation.



(** ** The small instance satisfies the assumptions *)

Lemma toy_shuffles_all : shuffles_all Toy.collaborators.
Proof. intros d seed. cbn. apply reverse_Permutation. Qed.

Lemma toy_runtime_fair (threads k : Z) : fair_runtime (Toy.runtime threads) k.
Proof.
  intros r. cbn. rewrite <- list_fmap_compose.
  replace (snd ∘ (fun f : Z => (f mod threads, f))) with (@id Z) by reflexivity.
  rewrite list_fmap_id. apply reverse_Permutation.
Qed.

Lemma serial_runtime_fair (k : Z) : fair_runtime serial_runtime k.
Proof.
  intros r. cbn. rewrite <- list_fmap_compose.
  replace (snd ∘ (fun f : Z => (0, f))) with (@id Z) by reflexivity.
  now rewrite list_fmap_id.
Qed.

(** ** Corollaries for the callers *)

(** Two fair runtimes, whatever their team sizes and schedules, give the
    same result from any two process states, and so does the loop with the
    directives ignored. *)
Lemma validate_same_result {C : Collaborators} (R1 R2 : OmpRuntime)
    (cv : CrossValidator) (params : HyperparameterSet) (dataset_name : string)
    (p1 p2 p3 : process) :
  0 < k_folds_ cv ->
  fair_runtime R1 (k_folds_ cv) -> fair_runtime R2 (k_folds_ cv) ->
  fst <$> validateSingleHyperparameter (R := R1) cv params dataset_name p1
  = fst <$> validateSingleHyperparameter (R := R2) cv params dataset_name p2
  /\ fst <$> validateSingleHyperparameter (R := R1) cv params dataset_name p1
     = fst <$> validateSingleHyperparameter_sequential cv params dataset_name p3.
Proof.
  intros Hk H1 H2.
  rewrite (validate_ok (R := R1) cv dataset_name Hk H1 params p1).
  rewrite (validate_ok (R := R2) cv dataset_name Hk H2 params p2).
  now rewrite (validate_sequential_ok cv dataset_name Hk params p3).
Qed.

(** Under the runtime of one thread the function with its directives is
    the function with the directives ignored, but for the count of
    parallel regions. *)
Lemma validate_serial_runtime {C : Collaborators} (cv : CrossValidator)
    (params : HyperparameterSet) (dataset_name : string) (p : process) :
  validateSingleHyperparameter_sequential cv params dataset_name
    (mkProcess (completed_folds p) (console p) (S (regions p)))
  = validateSingleHyperparameter (R := serial_runtime) cv params dataset_name p.
Proof.
  unfold validateSingleHyperparameter, validateSingleHyperparameter_sequential,
    fold_loop_parallel, fold_loop_sequential.
  destruct (createKFolds _ _ _) as [folds|]; [|reflexivity].
  destruct (k_folds_ cv <? 0) eqn:Hk; [reflexivity|].
  apply Z.ltb_ge in Hk. unfold for_range.
  rewrite (for_from_run_schedule (fold_body cv params folds 1)).
  rewrite Z.sub_0_r, Z2Nat.id by lia. reflexivity.
Qed.

(** ** From a result back to the loop *)

Section Runs.
Context {C : Collaborators}.
Variables (cv : CrossValidator) (params : HyperparameterSet).

Lemma validate_loop {R : OmpRuntime} (dataset_name : string) (p q : process)
    (res : CVResult) :
  validateSingleHyperparameter cv params dataset_name p = Some (res, q) ->
  exists st,
    fold_loop_parallel cv params p = Some st
    /\ make_result params dataset_name st = (res, q).
Proof.
  unfold validateSingleHyperparameter.
  destruct (fold_loop_parallel cv params p) as [st|]; [|discriminate].
  intros H. exists st. split; [reflexivity | congruence].
Qed.

Lemma validate_sequential_loop (dataset_name : string) (p q : process)
    (res : CVResult) :
  validateSingleHyperparameter_sequential cv params dataset_name p
  = Some (res, q) ->
  exists st,
    fold_loop_sequential cv params p = Some st
    /\ make_result params dataset_name st = (res, q).
Proof.
  unfold validateSingleHyperparameter_sequential.
  destruct (fold_loop_sequential cv params p) as [st|]; [|discriminate].
  intros H. exists st. split; [reflexivity | congruence].
Qed.

Lemma call_accuracy_Some (call : TreeCall) (val_data : DataFrame)
    (score : float) :
  call_accuracy call val_data = Some score
  <-> exists tree predictions true_labels,
        DecisionTree_new call = Some tree
        /\ predict tree val_data = Some predictions
        /\ col val_data (-1) = Some true_labels
        /\ accuracy true_labels predictions = Some score.
Proof.
  unfold call_accuracy. split.
  - destruct (DecisionTree_new call) as [tree|] eqn:Htree; [|discriminate].
    destruct (predict tree val_data) as [predictions|] eqn:Hpredict;
      [|discriminate].
    destruct (col val_data (-1)) as [true_labels|] eqn:Hcol; [|discriminate].
    intros Hacc. now exists tree, predictions, true_labels.
  - intros (tree & predictions & true_labels & -> & -> & -> & Hacc).
    exact Hacc.
Qed.

Lemma fold_at_fold_set (i : Z) :
  0 <= i < k_folds_ cv ->
  fold_at (fold_set_of cv) i
  = fold_pair_of (sample (data_ cv) (-1) (random_seed_ cv) false)
      (k_folds_ cv) i.
Proof.
  intros Hi. unfold fold_at, fold_set_of. now rewrite fold_pair_lookup.
Qed.

(** The scores of a run that returned are the scores of the folds. *)
Lemma collected_scores (fold_scores : list float) (i : Z) :
  mapM (score_of_fold cv params) (seqZ 0 (k_folds_ cv)) = Some fold_scores ->
  0 <= i < k_folds_ cv ->
  score_of_fold cv params i = fold_scores !! Z.to_nat i
  /\ is_Some (fold_scores !! Z.to_nat i).
Proof.
  intros Hall Hi.
  destruct (mapM_lookup _ _ _ (Z.to_nat i) i Hall) as (score & Hs & Hlook).
  { apply lookup_seqZ. lia. }
  rewrite Hs, Hlook. eauto.
Qed.


(** An iteration that ends with a state has logged one constructor call,
    made from the input set with every other limit switched off. *)
Lemma fold_body_trained (folds : list (list DataFrame))
    (num_threads tid fold : Z) (st st' : region) :
  fold_body cv params folds num_threads tid fold st = Some st' ->
  exists call,
    trained st' = trained st ++ [call]
    /\ tc_regression call = regression_ cv
    /\ tc_loss call = loss params
    /\ tc_max_height call = max_depth params
    /\ tc_min_obs call = min_obs params
    /\ unlimited call.
Proof.
  unfold fold_body.
  destruct (negb _); [discriminate|].
  destruct (folds !! _) as [fold_pair|]; [|discriminate].
  destruct (fold_pair !! 0%nat) as [train_data|]; [|discriminate].
  destruct (fold_pair !! 1%nat) as [val_data|]; [|discriminate].
  destruct (DecisionTree_new _) as [tree|]; [|discriminate].
  destruct (predict tree val_data) as [predictions|]; [|discriminate].
  destruct (col val_data (-1)) as [true_labels|]; [|discriminate].
  destruct (accuracy true_labels predictions) as [fold_accuracy|];
    [|discriminate].
  destruct (negb _); [discriminate|].
  intros [= <-]. eexists. cbn. repeat split.
Qed.

Lemma run_schedule_trained (folds : list (list DataFrame)) (num_threads : Z)
    (sched : list (Z * Z)) (st st' : region) :
  run_schedule (fold_body cv params folds num_threads) sched st = Some st' ->
  exists calls,
    trained st' = trained st ++ calls
    /\ length calls = length sched
    /\ Forall (fun call =>
                 tc_regression call = regression_ cv
                 /\ tc_loss call = loss params
                 /\ tc_max_height call = max_depth params
                 /\ tc_min_obs call = min_obs params
                 /\ unlimited call) calls.
Proof.
  revert st. induction sched as [|[tid fold] sched IH]; intros st.
  - intros [= <-]. exists []. now rewrite app_nil_r.
  - cbn [run_schedule].
    destruct (fold_body _ _ _ _ _ _ _) as [st1|] eqn:Hbody; [|discriminate].
    intros Hrest.
    destruct (fold_body_trained _ _ _ _ _ _ Hbody) as (call & Hst1 & Hcall).
    destruct (IH st1 Hrest) as (calls & Hst' & Hlen & Hcalls).
    exists (call :: calls). split; [|split].
    + rewrite Hst', Hst1, <- app_assoc. reflexivity.
    + cbn. now rewrite Hlen.
    + now constructor.
Qed.

End Runs.

(** * Main results *)

(** C1: for a dataset of [n] rows and [1 < k <= n], [createKFolds] returns
    exactly [k] (training, validation) pairs.  Validation subset [i] is the
    block of rows [block_start i, block_start i + size i) of the shuffled
    dataset, of size [n / k + 1] when [i < n mod k] and [n / k] otherwise;
    the blocks of two different folds are disjoint index ranges, two
    sizes differ by at most 1, the
    concatenation of the blocks is the shuffled dataset, hence a permutation of the
    dataset; the training subset of fold [i] is the shuffled rows outside
    block [i], so that training and validation rows together are the
    shuffled dataset. *)
Theorem createKFolds_partition {C : Collaborators} (data : DataFrame)
    (k seed : Z) :
  shuffles_all C ->
  1 < k <= df_length data ->
  let shuffled := sample data (-1) seed false in
  let n := df_length data in
  exists folds,
    createKFolds data k seed = Some folds
    /\ Z.of_nat (length folds) = k
    /\ (forall i, 0 <= i < k ->
          exists training validation,
            folds !! Z.to_nat i = Some [training; validation]
            /\ validation
               = rows_between shuffled (block_start n k i)
                   (block_start n k i + block_len n k i)
            /\ df_length validation = (if i <? n mod k then n / k + 1 else n / k)
            /\ training
               = take (Z.to_nat (block_start n k i)) shuffled
                 ++ drop (Z.to_nat (block_start n k i + block_len n k i)) shuffled
            /\ training ++ validation ≡ₚ shuffled)
    /\ (forall i j, 0 <= i -> i < j -> j < k ->
          block_start n k i + block_len n k i <= block_start n k j)
    /\ (forall i j, Z.abs (block_len n k i - block_len n k j) <= 1)
    /\ concat (validation_of <$> folds) = shuffled
    /\ concat (validation_of <$> folds) ≡ₚ data.
Proof.
  intros Hshuffle Hk shuffled n.
  assert (Hlen : df_length shuffled = n).
  { unfold df_length, n, shuffled. now rewrite (Hshuffle data seed). }
  assert (Hn : 0 <= n) by (unfold n, df_length; lia).
  exists (fold_pair_of shuffled k <$> seqZ 0 k).
  split; [apply createKFolds_blocks; lia|].
  split; [rewrite length_fmap, length_seqZ; lia|].
  assert (Hconcat : concat (validation_of <$> (fold_pair_of shuffled k <$> seqZ 0 k))
                    = shuffled).
  { rewrite <- list_fmap_compose.
    change (validation_of ∘ fold_pair_of shuffled k) with (validation_block shuffled k).
    rewrite <- (Z2Nat.id k) at 2 by lia.
    rewrite validation_blocks_concat by lia.
    rewrite Z2Nat.id, Hlen, block_start_k by lia.
    apply take_ge. unfold n, df_length in *. lia. }
  repeat split.
  - intros i Hi.
    exists (training_rows shuffled k i), (validation_block shuffled k i).
    pose proof (block_start_bounds n k i Hn ltac:(lia) ltac:(lia)) as Hs.
    pose proof (block_start_bounds n k (i + 1) Hn ltac:(lia) ltac:(lia)) as He.
    pose proof (block_len_nonneg n k i Hn ltac:(lia)) as Hl.
    rewrite block_start_succ in He.
    split; [now apply fold_pair_lookup|].
    unfold validation_block, training_rows. rewrite Hlen. cbv zeta.
    split; [reflexivity|]. split; [|split; [reflexivity|]].
    + unfold df_length at 1. rewrite rows_between_length by lia.
      unfold block_len. lia.
    + rewrite <- Hlen. apply training_validation_all; lia.
  - intros i j Hi Hij Hj. rewrite <- block_start_succ.
    apply block_start_mono; lia.
  - intros i j. unfold block_len.
    destruct (i <? n mod k), (j <? n mod k); lia.
  - exact Hconcat.
  - rewrite Hconcat. apply Hshuffle.
Qed.

Lemma createKFolds_partition_witness :
  (1 < 4 <= df_length Toy.rows)
  /\ exists folds,
       createKFolds (C := Toy.collaborators) Toy.rows 4 42 = Some folds
       /\ Z.of_nat (length folds) = 4
       /\ concat (validation_of <$> folds) ≡ₚ Toy.rows.
Proof.
  assert (Hk : 1 < 4 <= df_length Toy.rows) by (vm_compute; split; congruence).
  split; [exact Hk|].
  destruct (createKFolds_partition (C := Toy.collaborators) Toy.rows 4 42
              toy_shuffles_all Hk) as (folds & Hrun & Hlen & _ & _ & _ & _ & Hperm).
  exists folds. repeat split; assumption.
Defined.

(** C3: for every fold [i] in [0 .. k-1], [validateSingleHyperparameter]
    builds exactly one decision tree: the constructor calls of a run that
    returns are, up to the order the runtime chose (and in fold order when
    the directives are ignored), one per fold, on that fold's training
    subset, with the [max_depth], [min_obs] and [loss] of the input set and
    the seed [random_seed_ + i] as an [int] holds it (the sum itself when
    it lies in the range of [int]); and score [i] of the result is the
    accuracy of that tree's predictions on fold [i]'s validation subset
    against its label column.  The function returns a result exactly when
    each of the [k] trees can be built and scored. *)
Theorem fold_loop_trains_one_tree_per_fold {C : Collaborators} {R : OmpRuntime}
    (cv : CrossValidator) (params : HyperparameterSet) (dataset_name : string)
    (p : process) :
  0 < k_folds_ cv ->
  fair_runtime R (k_folds_ cv) ->
  exists folds,
    createKFolds (data_ cv) (k_folds_ cv) (random_seed_ cv) = Some folds
    /\ let call := fun i =>
         {| tc_data := training_of (fold_at folds i);
            tc_regression := regression_ cv;
            tc_loss := loss params;
            tc_mtry := -1;
            tc_max_height := max_depth params;
            tc_max_leaves := -1;
            tc_min_obs := min_obs params;
            tc_max_prop := (-1)%float;
            tc_seed :=
              (random_seed_ cv + i + 2147483648) mod 4294967296 - 2147483648 |} in
       let scored := fun i score =>
         exists tree predictions true_labels,
           DecisionTree_new (call i) = Some tree
           /\ predict tree (validation_of (fold_at folds i)) = Some predictions
           /\ col (validation_of (fold_at folds i)) (-1) = Some true_labels
           /\ accuracy true_labels predictions = Some score in
       (forall i, - 2147483648 <= random_seed_ cv + i < 2147483648 ->
          tc_seed (call i) = random_seed_ cv + i)
       /\ (is_Some (validateSingleHyperparameter cv params dataset_name p)
           <-> forall i, 0 <= i < k_folds_ cv -> exists score, scored i score)
       /\ (is_Some (validateSingleHyperparameter_sequential cv params
                      dataset_name p)
           <-> forall i, 0 <= i < k_folds_ cv -> exists score, scored i score)
       /\ (forall res q,
             validateSingleHyperparameter cv params dataset_name p
             = Some (res, q) ->
             exists st,
               fold_loop_parallel cv params p = Some st
               /\ make_result params dataset_name st = (res, q)
               /\ trained st ≡ₚ call <$> seqZ 0 (k_folds_ cv)
               /\ forall i, 0 <= i < k_folds_ cv ->
                    exists score,
                      scored i score
                      /\ fold_scores res !! Z.to_nat i = Some score)
       /\ (forall res q,
             validateSingleHyperparameter_sequential cv params dataset_name p
             = Some (res, q) ->
             exists st,
               fold_loop_sequential cv params p = Some st
               /\ make_result params dataset_name st = (res, q)
               /\ trained st = call <$> seqZ 0 (k_folds_ cv)
               /\ forall i, 0 <= i < k_folds_ cv ->
                    exists score,
                      scored i score
                      /\ fold_scores res !! Z.to_nat i = Some score).
Proof.
  intros Hk Hfair.
  exists (fold_set_of cv). split; [now apply createKFolds_blocks|].
  intros call scored.
  assert (Hcall : forall i, 0 <= i < k_folds_ cv ->
            call i = call_of_fold cv params i).
  { intros i Hi. unfold call. rewrite fold_at_fold_set by assumption.
    reflexivity. }
  assert (Hscored : forall i score, 0 <= i < k_folds_ cv ->
            scored i score <-> score_of_fold cv params i = Some score).
  { intros i score Hi. unfold scored. rewrite Hcall by assumption.
    rewrite fold_at_fold_set by assumption. symmetry.
    apply call_accuracy_Some. }
  assert (Hsucceed :
            folds_succeed cv params
            <-> forall i, 0 <= i < k_folds_ cv -> exists score, scored i score).
  { split; intros H i Hi; destruct (H i Hi) as [score Hscore];
      exists score; now apply (Hscored i score Hi). }
  assert (Hscores : forall fs, 
            mapM (score_of_fold cv params) (seqZ 0 (k_folds_ cv)) = Some fs ->
            forall i, 0 <= i < k_folds_ cv ->
              exists score, scored i score /\ fs !! Z.to_nat i = Some score).
  { intros fs Hall i Hi.
    destruct (collected_scores cv params fs i Hall Hi) as [Heq [score Hlook]].
    exists score. split; [|exact Hlook].
    apply Hscored; [assumption|]. now rewrite Heq. }
  split.
  { intros i Hi. cbn. rewrite Z.mod_small; lia. }
  split.
  { now rewrite (validate_is_Some cv dataset_name Hk Hfair). }
  split.
  { now rewrite (validate_sequential_is_Some cv dataset_name Hk). }
  split.
  - intros res q Hrun.
    destruct (validate_loop cv params dataset_name p q res Hrun)
      as (st & Hloop & Hres).
    exists st. split; [exact Hloop|]. split; [exact Hres|].
    rewrite fold_loop_parallel_ok in Hloop by assumption.
    destruct (mapM _ _) as [fs|] eqn:Hall; [|discriminate].
    injection Hloop as <-. injection Hres as <- _. cbn [trained scores fold_scores].
    split.
    + rewrite (Hfair (regions p)).
      match goal with |- ?a ≡ₚ ?b => assert (a = b) as ->; [|reflexivity] end.
      apply list_fmap_ext. intros j i [-> Hi]%lookup_seqZ.
      symmetry. apply Hcall. lia.
    + now apply Hscores.
  - intros res q Hrun.
    destruct (validate_sequential_loop cv params dataset_name p q res Hrun)
      as (st & Hloop & Hres).
    exists st. split; [exact Hloop|]. split; [exact Hres|].
    rewrite fold_loop_sequential_ok in Hloop by assumption.
    destruct (mapM _ _) as [fs|] eqn:Hall; [|discriminate].
    injection Hloop as <-. injection Hres as <- _. cbn [trained scores fold_scores].
    split.
    + apply list_fmap_ext. intros j i [-> Hi]%lookup_seqZ.
      symmetry. apply Hcall. lia.
    + now apply Hscores.
Qed.

Lemma fold_loop_trains_one_tree_per_fold_witness :
  0 < k_folds_ Toy.cv
  /\ exists res q st,
       validateSingleHyperparameter (C := Toy.collaborators) (R := Toy.runtime 2)
         Toy.cv HyperparameterSet_default "toy" Toy.start = Some (res, q)
       /\ fold_loop_parallel (C := Toy.collaborators) (R := Toy.runtime 2)
            Toy.cv HyperparameterSet_default Toy.start = Some st
       /\ length (trained st) = 4%nat.
Proof.
  assert (Hk : 0 < k_folds_ Toy.cv) by reflexivity.
  split; [exact Hk|].
  destruct (fold_loop_trains_one_tree_per_fold (C := Toy.collaborators)
              (R := Toy.runtime 2) Toy.cv HyperparameterSet_default "toy"
              Toy.start Hk (toy_runtime_fair 2 _))
    as (folds & _ & _ & _ & _ & Hpar & _).
  destruct (validateSingleHyperparameter (C := Toy.collaborators)
              (R := Toy.runtime 2) Toy.cv HyperparameterSet_default "toy"
              Toy.start) as [[res q]|] eqn:Hrun; [|vm_compute in Hrun; discriminate].
  destruct (Hpar res q eq_refl) as (st & Hloop & _ & Htrained & _).
  exists res, q, st. split; [reflexivity|]. split; [exact Hloop|].
  now rewrite (Permutation_length Htrained).
Defined.

(** C9: whatever the hyperparameter set and the configuration of the
    validator, every decision tree built inside
    [validateSingleHyperparameter] is built with [mtry = -1],
    [max_leaves = -1] and [max_prop = -1]: this holds for the trees of any
    iterations of the loop that complete, and a run that returns has built
    [k] such trees.  A run returns exactly when every fold gets a
    score. *)
Theorem fold_loop_trees_unlimited {C : Collaborators} {R : OmpRuntime}
    (cv : CrossValidator) (params : HyperparameterSet) (dataset_name : string)
    (p : process) :
  0 < k_folds_ cv ->
  fair_runtime R (k_folds_ cv) ->
  (forall folds num_threads sched st st',
     run_schedule (fold_body cv params folds num_threads) sched st = Some st' ->
     exists calls,
       trained st' = trained st ++ calls
       /\ length calls = length sched
       /\ Forall unlimited calls)
  /\ (is_Some (validateSingleHyperparameter cv params dataset_name p)
      <-> folds_succeed cv params)
  /\ (is_Some (validateSingleHyperparameter_sequential cv params dataset_name p)
      <-> folds_succeed cv params)
  /\ (forall res q,
        validateSingleHyperparameter cv params dataset_name p = Some (res, q) ->
        exists st,
          fold_loop_parallel cv params p = Some st
          /\ make_result params dataset_name st = (res, q)
          /\ Z.of_nat (length (trained st)) = k_folds_ cv
          /\ Forall unlimited (trained st))
  /\ (forall res q,
        validateSingleHyperparameter_sequential cv params dataset_name p
        = Some (res, q) ->
        exists st,
          fold_loop_sequential cv params p = Some st
          /\ make_result params dataset_name st = (res, q)
          /\ Z.of_nat (length (trained st)) = k_folds_ cv
          /\ Forall unlimited (trained st)).
Proof.
  intros Hk Hfair. split; [|split; [|split; [|split]]].
  - intros folds num_threads sched st st' Hrun.
    destruct (run_schedule_trained cv params _ _ _ _ _ Hrun)
      as (calls & Htrained & Hlen & Hcalls).
    exists calls. split; [exact Htrained|]. split; [exact Hlen|].
    eapply Forall_impl; [exact Hcalls|]. now intros call (_ & _ & _ & _ & H).
  - apply (validate_is_Some cv dataset_name Hk Hfair).
  - apply (validate_sequential_is_Some cv dataset_name Hk).
  - intros res q Hrun.
    destruct (validate_loop cv params dataset_name p q res Hrun)
      as (st & Hloop & Hres).
    exists st. split; [exact Hloop|]. split; [exact Hres|].
    rewrite fold_loop_parallel_ok in Hloop by assumption.
    destruct (mapM _ _) as [fs|]; [|discriminate].
    injection Hloop as <-. cbn [trained]. split.
    + rewrite length_fmap, (Permutation_length (Hfair (regions p))), length_seqZ.
      lia.
    + apply Forall_fmap, Forall_forall. intros i _. repeat split.
  - intros res q Hrun.
    destruct (validate_sequential_loop cv params dataset_name p q res Hrun)
      as (st & Hloop & Hres).
    exists st. split; [exact Hloop|]. split; [exact Hres|].
    rewrite fold_loop_sequential_ok in Hloop by assumption.
    destruct (mapM _ _) as [fs|]; [|discriminate].
    injection Hloop as <-. cbn [trained]. split.
    + rewrite length_fmap, length_seqZ. lia.
    + apply Forall_fmap, Forall_forall. intros i _. repeat split.
Qed.

Lemma fold_loop_trees_unlimited_witness :
  0 < k_folds_ Toy.cv
  /\ exists res q st,
       validateSingleHyperparameter (C := Toy.collaborators) (R := Toy.runtime 2)
         Toy.cv (mkHyperparameterSet 3 5 "variance") "toy" Toy.start
       = Some (res, q)
       /\ fold_loop_parallel (C := Toy.collaborators) (R := Toy.runtime 2) Toy.cv
            (mkHyperparameterSet 3 5 "variance") Toy.start = Some st
       /\ Forall unlimited (trained st).
Proof.
  assert (Hk : 0 < k_folds_ Toy.cv) by reflexivity.
  split; [exact Hk|].
  destruct (fold_loop_trees_unlimited (C := Toy.collaborators)
              (R := Toy.runtime 2) Toy.cv (mkHyperparameterSet 3 5 "variance")
              "toy" Toy.start Hk (toy_runtime_fair 2 _))
    as (_ & _ & _ & Hpar & _).
  destruct (validateSingleHyperparameter (C := Toy.collaborators)
              (R := Toy.runtime 2) Toy.cv (mkHyperparameterSet 3 5 "variance")
              "toy" Toy.start) as [[res q]|] eqn:Hrun;
    [|vm_compute in Hrun; discriminate].
  destruct (Hpar res q eq_refl) as (st & Hloop & _ & _ & Hall).
  exists res, q, st. split; [reflexivity|]. split; assumption.
Defined.






(** C4 (amended): on a non-empty list of results,
    [getBestParams] returns the default hyperparameter set
    ([min_obs = 1], [loss = gini_impurity]) with the [max_depth] of one of
    the results.  When the mean accuracy of the first result is a NaN, it
    is the first result.  Otherwise it is the first result of maximum mean
    accuracy among the results whose mean is a number: its mean is a
    number, the mean of every such result is at most its mean, and the
    mean of every such result before it is less. *)
Theorem getBestParams_first_maximum (cv_results : list CVResult) (p : process) :
  cv_results <> [] ->
  exists (i : nat) (r first : CVResult),
    cv_results !! 0%nat = Some first
    /\ cv_results !! i = Some r
    /\ fst (getBestParams cv_results p)
       = mkHyperparameterSet (cv_max_depth r) 1 "gini_impurity"
    /\ (PrimFloat.is_nan (mean_cv_accuracy first) = true -> i = 0%nat)
    /\ (PrimFloat.is_nan (mean_cv_accuracy first) = false ->
        PrimFloat.is_nan (mean_cv_accuracy r) = false
        /\ (forall j r', cv_results !! j = Some r' ->
              PrimFloat.is_nan (mean_cv_accuracy r') = false ->
              (mean_cv_accuracy r' <=? mean_cv_accuracy r)%float = true)
        /\ (forall j r', (j < i)%nat -> cv_results !! j = Some r' ->
              PrimFloat.is_nan (mean_cv_accuracy r') = false ->
              (mean_cv_accuracy r' <? mean_cv_accuracy r)%float = true)).
Proof.
  intros Hne. destruct cv_results as [|first rest]; [congruence|].
  destruct (PrimFloat.is_nan (mean_cv_accuracy first)) eqn:Hfirst.
  - exists 0%nat, first, first. split; [reflexivity|]. split; [reflexivity|].
    split; [|split; [reflexivity | congruence]].
    cbn [getBestParams fst]. now rewrite best_scan_nan.
  - destruct (getBestParams_chosen first rest)
      as (i & r & (Hi & Hall & Hbefore) & Hscan).
    assert (Hr : PrimFloat.is_nan (mean_cv_accuracy r) = false).
    { pose proof (best_scan_not_nan (first :: rest)
                    (mean_cv_accuracy first, cv_max_depth first) Hfirst) as Hnum.
      now rewrite Hscan in Hnum. }
    exists i, r, first. split; [reflexivity|]. split; [exact Hi|]. split.
    { cbn [getBestParams fst]. now rewrite Hscan. }
    split; [congruence|]. intros _. split; [exact Hr|]. split.
    + intros j r' Hj Hr'. apply float_leb_of_not_ltb; try assumption.
      apply (Hall j r'); [|exact Hj]. now apply lookup_lt_Some in Hj.
    + intros j r' Hji Hj Hr'. apply float_ltb_of_not_leb; try assumption.
      now apply (Hbefore j r').
Qed.

Lemma getBestParams_first_maximum_witness :
  let results :=
    [ mkCVResult "toy" 1 0 0.5 0 [0.5; 0.5];
      mkCVResult "toy" 2 0 0.75 0 [0.75; 0.75];
      mkCVResult "toy" 3 0 0.75 0 [0.75; 0.75] ]%float in
  results <> []
  /\ exists (i : nat) (r : CVResult),
       results !! i = Some r
       /\ fst (getBestParams results Toy.start)
          = mkHyperparameterSet (cv_max_depth r) 1 "gini_impurity".
Proof.
  intros results.
  assert (Hne : results <> []) by discriminate.
  split; [exact Hne|].
  destruct (getBestParams_first_maximum results Toy.start Hne)
    as (i & r & first & _ & Hi & Hbest & _).
  exists i, r. split; assumption.
Defined.

Example getBestParams_tie :
  fst (getBestParams
         [ mkCVResult "toy" 1 0 0.5 0 [0.5; 0.5];
           mkCVResult "toy" 2 0 0.75 0 [0.75; 0.75];
           mkCVResult "toy" 3 0 0.75 0 [0.75; 0.75] ]%float Toy.start)
  = mkHyperparameterSet 2 1 "gini_impurity".
Proof. vm_compute. reflexivity. Qed.

(** A first mean that is a NaN wins over a later mean of [1.0]. *)
Example getBestParams_nan_before_one :
  fst (getBestParams
         [ mkCVResult "toy" 1 0 PrimFloat.nan PrimFloat.nan [];
           mkCVResult "toy" 2 0 1 0 [1; 1] ]%float Toy.start)
  = mkHyperparameterSet 1 1 "gini_impurity".
Proof. vm_compute. reflexivity. Qed.

(** C4 (counterexample): the set returned is not always the one that
    produced the best result.  A grid search over the single set
    [(max_depth 3, min_obs 5, loss variance)] gives one result, and
    [getBestParams] answers [(3, 1, gini_impurity)]. *)
Lemma getBestParams_forgets_min_obs_and_loss :
  exists results p',
    gridSearchCV (C := Toy.collaborators) (R := Toy.runtime 2) Toy.cv
      [mkHyperparameterSet 3 5 "variance"] "toy" Toy.start
    = Some (results, p')
    /\ fst (getBestParams results p') = mkHyperparameterSet 3 1 "gini_impurity"
    /\ fst (getBestParams results p') <> mkHyperparameterSet 3 5 "variance".
Proof. eexists _, _. vm_compute. repeat split. discriminate. Qed.

(** C6: construction fails with [InvalidFoldCount] whenever [k <= 1] or
    the row count is below [k]; for [k > 1] and a row count of at least
    [k] it succeeds and stores dataset, fold count, seed and task type
    unchanged. *)
Theorem CrossValidator_new_spec (data : DataFrame) (k seed : Z)
    (regression : bool) :
  (k <= 1 \/ df_length data < k ->
   CrossValidator_new data k seed regression = inl InvalidFoldCount)
  /\ (1 < k /\ k <= df_length data ->
      exists cv,
        CrossValidator_new data k seed regression = inr cv
        /\ data_ cv = data /\ k_folds_ cv = k
        /\ random_seed_ cv = seed /\ regression_ cv = regression).
Proof.
  unfold CrossValidator_new.
  destruct (Z.gtb_spec k 1) as [Hk|Hk]; cbn [negb];
    [destruct (Z.geb_spec (df_length data) k) as [Hn|Hn]; cbn [negb]|].
  - split; [lia|]. intros _. eexists. repeat split.
  - split; [reflexivity | lia].
  - split; [reflexivity | lia].
Qed.

(** C7: for a non-empty vector of [k] scores, [calculateMeanStd] returns
    as mean the sum of the scores divided by [k], and as standard
    deviation the square root of the sum of the squared deviations from
    that mean divided by [k] (the population formula, not [k - 1]); the
    sums are taken in index order, and the divisor is the double that
    IEEE 754 rounding gives for the integer [k] (a vector has fewer than
    [2^63] elements). *)
Theorem calculateMeanStd_population (scores : list float) :
  scores <> [] ->
  Z.of_nat (length scores) < 2 ^ 63 ->
  calculateMeanStd scores = (mean_of scores, population_std_of scores).
Proof.
  intros Hne Hlen. destruct scores as [|x scores]; [congruence|].
  unfold calculateMeanStd.
  set (l := x :: scores) in *.
  rewrite !(size_to_double_count l Hlen).
  assert (Hmean :
    (fold_left (fun sum score => sum + score) l 0
     / double_of_count (length l))%float
    = mean_of l).
  { unfold mean_of. now rewrite (fold_left_sum_first (fun s => s)). }
  cbv zeta. rewrite Hmean. f_equal.
  unfold population_std_of. do 2 f_equal.
  apply (fold_left_sum_first (fun s => ((s - mean_of l) * (s - mean_of l))%float)).
Qed.

Lemma calculateMeanStd_population_witness :
  let scores := [1; 0.5; 0.75; 0.75]%float in
  scores <> []
  /\ calculateMeanStd scores = (0.75%float, PrimFloat.sqrt 0.03125%float).
Proof.
  intros scores.
  assert (Hne : scores <> []) by discriminate.
  assert (Hlen : Z.of_nat (length scores) < 2 ^ 63) by (vm_compute; reflexivity).
  split; [exact Hne|].
  rewrite (calculateMeanStd_population scores Hne Hlen).
  vm_compute. reflexivity.
Defined.

(** Three scores are divided by [3.0], not by [2.0]. *)
Example calculateMeanStd_three :
  calculateMeanStd [1; 0; 0.5]%float
  = (0.5%float, PrimFloat.sqrt (0.5 / 3)%float)
  /\ double_of_count 3 = 3%float.
Proof. vm_compute. split; reflexivity. Qed.

(** C10: on an empty list of results [getBestParams] does not fail and
    prints nothing: it returns the default hyperparameter set,
    [max_depth = 5], [min_obs = 1], [loss = gini_impurity]. *)
Theorem getBestParams_empty (p : process) :
  getBestParams [] p = (mkHyperparameterSet 5 1 "gini_impurity", p).
Proof. reflexivity. Qed.

(** * Further results *)

(** ** [createKFolds] outside the range of the constructor *)

(** X1: a fold count of zero is a division by zero, and a negative fold
    count is no error: the loop does not run and the fold set is empty. *)
Theorem createKFolds_without_folds {C : Collaborators} (data : DataFrame)
    (k seed : Z) :
  k <= 0 ->
  createKFolds data k seed = if k =? 0 then None else Some [].
Proof.
  intros Hk. unfold createKFolds.
  destruct (Z.eqb_spec k 0) as [->|Hne]; [reflexivity|].
  unfold for_range. now replace (Z.to_nat (k - 0)) with 0%nat by lia.
Qed.

Lemma createKFolds_without_folds_witness :
  -3 <= 0
  /\ createKFolds (C := Toy.collaborators) Toy.rows (-3) 42 = Some [].
Proof.
  assert (Hk : -3 <= 0) by lia.
  split; [exact Hk|].
  exact (createKFolds_without_folds (C := Toy.collaborators) Toy.rows (-3) 42 Hk).
Defined.

(** X2: with a fold count of zero or less, cross-validation fails before
    any tree is built, under every runtime and from every process state,
    in the parallel and in the sequential loop. *)
Theorem validate_fails_without_folds {C : Collaborators} {R : OmpRuntime}
    (cv : CrossValidator) (params : HyperparameterSet) (dataset_name : string)
    (p : process) :
  k_folds_ cv <= 0 ->
  validateSingleHyperparameter cv params dataset_name p = None
  /\ validateSingleHyperparameter_sequential cv params dataset_name p = None.
Proof.
  intros Hk.
  unfold validateSingleHyperparameter, validateSingleHyperparameter_sequential,
    fold_loop_parallel, fold_loop_sequential, createKFolds.
  destruct (Z.eqb_spec (k_folds_ cv) 0) as [Hz|Hne]; [now split|].
  replace (k_folds_ cv <? 0) with true by (symmetry; apply Z.ltb_lt; lia).
  split; now destruct (for_range 0 (k_folds_ cv) _ []).
Qed.

Lemma validate_fails_without_folds_witness :
  let cv := mkCrossValidator Toy.rows 0 42 false in
  k_folds_ cv <= 0
  /\ validateSingleHyperparameter (C := Toy.collaborators) (R := Toy.runtime 2)
       cv HyperparameterSet_default "toy" Toy.start = None.
Proof.
  intros cv.
  assert (Hk : k_folds_ cv <= 0) by (cbn; lia).
  split; [exact Hk|].
  exact (proj1 (validate_fails_without_folds (C := Toy.collaborators)
                  (R := Toy.runtime 2) cv HyperparameterSet_default "toy"
                  Toy.start Hk)).
Defined.

(** X3: for every fold count [k >= 1], also [k = 1] and [k] above the row
    count, and whatever rows the shuffle returns, [createKFolds] returns
    [k] pairs; the validation subset of fold [i] has the size of block [i]
    and its training subset has all the other rows of the shuffled data. *)
Theorem createKFolds_sizes {C : Collaborators} (data : DataFrame) (k seed : Z) :
  0 < k ->
  let n := df_length (sample data (-1) seed false) in
  exists folds,
    createKFolds data k seed = Some folds
    /\ Z.of_nat (length folds) = k
    /\ forall i, 0 <= i < k ->
         exists training validation,
           folds !! Z.to_nat i = Some [training; validation]
           /\ df_length validation = (if i <? n mod k then n / k + 1 else n / k)
           /\ df_length training = n - df_length validation.
Proof.
  intros Hk n. set (shuffled := sample data (-1) seed false) in *.
  assert (Hn : 0 <= n) by (unfold n, df_length; lia).
  eexists. split; [now apply createKFolds_blocks|].
  split; [rewrite length_fmap, length_seqZ; lia|].
  intros i Hi.
  exists (training_rows shuffled k i), (validation_block shuffled k i).
  split; [now apply fold_pair_lookup|].
  pose proof (block_start_bounds n k i Hn Hk ltac:(lia)) as Hs.
  pose proof (block_start_bounds n k (i + 1) Hn Hk ltac:(lia)) as He.
  pose proof (block_len_nonneg n k i Hn Hk) as Hl.
  rewrite block_start_succ in He.
  assert (Hval : df_length (validation_block shuffled k i) = block_len n k i).
  { unfold validation_block. fold n. unfold df_length at 1.
    rewrite rows_between_length by (fold n; lia). lia. }
  split; [exact Hval|]. rewrite Hval.
  unfold training_rows. fold n. unfold df_length.
  rewrite length_app, length_take, length_drop.
  unfold n, df_length in *. lia.
Qed.

Lemma createKFolds_sizes_witness :
  0 < 8
  /\ exists folds,
       createKFolds (C := Toy.collaborators) Toy.rows 8 42 = Some folds
       /\ Z.of_nat (length folds) = 8.
Proof.
  assert (Hk : 0 < 8) by lia.
  split; [exact Hk|].
  destruct (createKFolds_sizes (C := Toy.collaborators) Toy.rows 8 42 Hk)
    as (folds & Hrun & Hlen & _).
  exists folds. split; assumption.
Defined.

Lemma take_one_drop {A : Type} (l : list A) (i : nat) :
  take 1 (drop i l) = option_list (l !! i).
Proof.
  destruct (l !! i) as [x|] eqn:Hi.
  - now rewrite (drop_S l x i Hi).
  - rewrite drop_ge; [reflexivity|]. now apply lookup_ge_None.
Qed.

(** X4: when there are at least as many folds as rows, the fold set is
    leave-one-out: fold [i] validates on the [i]-th shuffled row alone and
    trains on all the others; the folds past the last row have an empty
    validation subset and train on every row. *)
Theorem createKFolds_leave_one_out {C : Collaborators} (data : DataFrame)
    (k seed : Z) :
  let shuffled := sample data (-1) seed false in
  0 < k -> df_length shuffled <= k ->
  exists folds,
    createKFolds data k seed = Some folds
    /\ forall i, 0 <= i < k ->
         folds !! Z.to_nat i
         = Some [delete (Z.to_nat i) shuffled;
                 option_list (shuffled !! Z.to_nat i)].
Proof.
  intros shuffled Hk Hn.
  eexists. split; [now apply createKFolds_blocks|].
  intros i Hi. fold shuffled. rewrite fold_pair_lookup by assumption.
  set (n := df_length shuffled) in *.
  assert (Hn0 : 0 <= n) by (unfold n, df_length; lia).
  assert (Hstart : block_start n k i = Z.min i n).
  { unfold block_start. destruct (Z.eq_dec n k) as [->|Hne].
    - rewrite Z.div_same, Z.mod_same by lia. lia.
    - rewrite Z.div_small, Z.mod_small by lia. lia. }
  assert (Hlen : block_len n k i = if i <? n then 1 else 0).
  { unfold block_len. destruct (Z.eq_dec n k) as [->|Hne].
    - rewrite Z.div_same, Z.mod_same by lia.
      destruct (Z.ltb_spec i 0), (Z.ltb_spec i k); lia.
    - rewrite Z.div_small, Z.mod_small by lia.
      destruct (i <? n); reflexivity. }
  unfold fold_pair_of, training_rows, validation_block, rows_between.
  fold n. rewrite Hstart, Hlen.
  unfold DataFrame. rewrite delete_take_drop.
  destruct (Z.ltb_spec i n) as [Hin|Hin].
  - replace (Z.min i n) with i by lia.
    replace (Z.to_nat (i + 1 - i)) with 1%nat by lia.
    replace (Z.to_nat (i + 1)) with (S (Z.to_nat i)) by lia.
    now rewrite take_one_drop.
  - replace (Z.min i n) with n by lia.
    replace (Z.to_nat (n + 0 - n)) with 0%nat by lia.
    unfold n, df_length in *.
    rewrite (lookup_ge_None_2 shuffled) by lia.
    rewrite (take_ge shuffled (Z.to_nat (Z.of_nat (length shuffled)))) by lia.
    rewrite (take_ge shuffled (Z.to_nat i)) by lia.
    rewrite (drop_ge shuffled (S (Z.to_nat i))) by lia.
    rewrite (drop_ge shuffled (Z.to_nat (Z.of_nat (length shuffled) + 0))) by lia.
    reflexivity.
Qed.

Lemma createKFolds_leave_one_out_witness :
  0 < 8 /\ df_length (reverse Toy.rows) <= 8
  /\ exists folds,
       createKFolds (C := Toy.collaborators) Toy.rows 8 42 = Some folds
       /\ folds !! 7%nat = Some [reverse Toy.rows; []].
Proof.
  assert (Hk : 0 < 8) by lia.
  assert (Hn : df_length (reverse Toy.rows) <= 8) by (vm_compute; congruence).
  split; [exact Hk|]. split; [exact Hn|].
  destruct (createKFolds_leave_one_out (C := Toy.collaborators) Toy.rows 8 42
              Hk Hn) as (folds & Hrun & Hfold).
  exists folds. split; [exact Hrun|].
  exact (Hfold 7 ltac:(lia)).
Defined.

(** X5: with a single fold, nothing is left to train on: the training
    subset is empty and the validation subset is the whole shuffled
    dataset. *)
Theorem createKFolds_single_fold {C : Collaborators} (data : DataFrame)
    (seed : Z) :
  createKFolds data 1 seed = Some [[ []; sample data (-1) seed false ]].
Proof.
  rewrite createKFolds_blocks by lia.
  set (shuffled := sample data (-1) seed false).
  change (seqZ 0 1) with [0]. cbn [fmap list_fmap]. do 2 f_equal.
  unfold fold_pair_of, training_rows, validation_block, rows_between,
    block_start, block_len.
  rewrite Z.div_1_r, Z.mod_1_r. cbn [Z.ltb Z.compare Z.mul Z.min Z.add].
  change (Z.to_nat 0) with 0%nat. rewrite take_0, drop_0.
  rewrite drop_ge, take_ge by (unfold df_length; lia).
  reflexivity.
Qed.

(** X6: the two asserts of the constructor are what keeps every fold
    usable: for a validator that was constructed, every fold has a
    non-empty validation subset and a non-empty training subset. *)
Theorem constructed_validator_folds_nonempty {C : Collaborators}
    (data : DataFrame) (k seed : Z) (regression : bool) (cv : CrossValidator) :
  shuffles_all C ->
  CrossValidator_new data k seed regression = inr cv ->
  exists folds,
    createKFolds (data_ cv) (k_folds_ cv) (random_seed_ cv) = Some folds
    /\ forall i, 0 <= i < k_folds_ cv ->
         exists training validation,
           folds !! Z.to_nat i = Some [training; validation]
           /\ training <> [] /\ validation <> [].
Proof.
  intros Hshuffle Hnew. unfold CrossValidator_new in Hnew.
  destruct (Z.gtb_spec k 1) as [Hk|Hk]; cbn [negb] in Hnew; [|discriminate].
  destruct (Z.geb_spec (df_length data) k) as [Hn|Hn]; cbn [negb] in Hnew;
    [|discriminate].
  injection Hnew as <-. cbn [data_ k_folds_ random_seed_].
  set (shuffled := sample data (-1) seed false).
  assert (Hlen : df_length shuffled = df_length data).
  { unfold df_length, shuffled. now rewrite (Hshuffle data seed). }
  set (n := df_length data) in *.
  eexists. split; [apply createKFolds_blocks; lia|].
  intros i Hi. fold shuffled.
  exists (training_rows shuffled k i), (validation_block shuffled k i).
  split; [now apply fold_pair_lookup|].
  assert (Hn0 : 0 <= n) by lia.
  pose proof (block_start_bounds n k i Hn0 ltac:(lia) ltac:(lia)) as Hs.
  pose proof (block_start_bounds n k (i + 1) Hn0 ltac:(lia) ltac:(lia)) as He.
  rewrite block_start_succ in He.
  assert (Hq : 1 <= n / k) by (apply Z.div_le_lower_bound; lia).
  assert (Hl : 1 <= block_len n k i < n).
  { unfold block_len. pose proof (Z.mod_pos_bound n k ltac:(lia)).
    pose proof (Z.div_mod n k ltac:(lia)).
    destruct (Z.ltb_spec i (n mod k)); nia. }
  split.
  - intros Hnil. apply (f_equal length) in Hnil.
    unfold training_rows in Hnil. rewrite Hlen in Hnil. fold n in Hnil.
    rewrite length_app, length_take, length_drop in Hnil.
    change (length []) with 0%nat in Hnil.
    unfold df_length in Hlen. lia.
  - intros Hnil. apply (f_equal df_length) in Hnil.
    unfold validation_block in Hnil. rewrite Hlen in Hnil. fold n in Hnil.
    unfold df_length at 1 in Hnil.
    rewrite rows_between_length in Hnil by (rewrite ?Hlen; lia).
    change (df_length []) with 0 in Hnil. lia.
Qed.

Lemma constructed_validator_folds_nonempty_witness :
  CrossValidator_new Toy.rows 4 42 false = inr Toy.cv
  /\ exists folds,
       createKFolds (C := Toy.collaborators) Toy.rows 4 42 = Some folds.
Proof.
  assert (Hnew : CrossValidator_new Toy.rows 4 42 false = inr Toy.cv)
    by reflexivity.
  split; [exact Hnew|].
  destruct (constructed_validator_folds_nonempty (C := Toy.collaborators)
              Toy.rows 4 42 false Toy.cv toy_shuffles_all Hnew)
    as (folds & Hrun & _).
  exists folds. exact Hrun.
Defined.

(** ** Grid search over a grid in two parts *)

Lemma gridSearchCV_loop_acc {C : Collaborators} {R : OmpRuntime}
    (cv : CrossValidator) (dataset_name : string)
    (param_grid : list HyperparameterSet) (results : list CVResult)
    (p : process) :
  gridSearchCV_loop cv param_grid dataset_name results p
  = match gridSearchCV_loop cv param_grid dataset_name [] p with
    | Some (rs, q) => Some (results ++ rs, q)
    | None => None
    end.
Proof.
  revert results p. induction param_grid as [|params grid IH]; intros results p.
  - cbn. now rewrite app_nil_r.
  - cbn [gridSearchCV_loop].
    destruct (validateSingleHyperparameter cv params dataset_name p)
      as [[res p1]|]; [|reflexivity].
    cbn [fst snd app]. rewrite (IH (results ++ [res])), (IH [res]).
    destruct (gridSearchCV_loop cv grid dataset_name [] p1) as [[rs q]|];
      [|reflexivity].
    now rewrite <- app_assoc.
Qed.

(** X9: a grid search over two grids put end to end is the search over
    the first followed, from the process state it leaves, by the search
    over the second; a failure in either part fails the whole search and
    no result of the other part is returned. *)
Theorem gridSearchCV_app {C : Collaborators} {R : OmpRuntime}
    (cv : CrossValidator) (grid1 grid2 : list HyperparameterSet)
    (dataset_name : string) (p : process) :
  gridSearchCV cv (grid1 ++ grid2) dataset_name p
  = match gridSearchCV cv grid1 dataset_name p with
    | Some (results1, p1) =>
        match gridSearchCV cv grid2 dataset_name p1 with
        | Some (results2, p2) => Some (results1 ++ results2, p2)
        | None => None
        end
    | None => None
    end.
Proof.
  unfold gridSearchCV. revert p.
  induction grid1 as [|params grid1 IH]; intros p.
  - cbn. now destruct (gridSearchCV_loop cv grid2 dataset_name [] p) as [[]|].
  - cbn [app gridSearchCV_loop].
    destruct (validateSingleHyperparameter cv params dataset_name p)
      as [[res p1]|]; [|reflexivity].
    cbn [fst snd app].
    rewrite (gridSearchCV_loop_acc cv dataset_name (grid1 ++ grid2) [res]).
    rewrite (gridSearchCV_loop_acc cv dataset_name grid1 [res]).
    rewrite IH.
    destruct (gridSearchCV_loop cv grid1 dataset_name [] p1) as [[rs1 q1]|];
      [|reflexivity].
    destruct (gridSearchCV_loop cv grid2 dataset_name [] q1) as [[rs2 q2]|];
      reflexivity.
Qed.

(** ** The convenience method for one depth *)

(** X10: [validateDepth] cross-validates the hyperparameter set
    [(depth, min_obs = 1, loss = gini_impurity)].  It returns a result
    exactly when every fold of that set gets a score, and the [k] trees of
    a run that returns have that maximum height, [min_obs = 1] and the
    loss [gini_impurity], also when the validator was constructed for
    regression, and all other limits switched off. *)
Theorem validateDepth_trees {C : Collaborators} {R : OmpRuntime}
    (cv : CrossValidator) (depth : Z) (dataset_name : string) (p : process) :
  0 < k_folds_ cv ->
  fair_runtime R (k_folds_ cv) ->
  (is_Some (validateDepth cv depth dataset_name p)
   <-> folds_succeed cv (mkHyperparameterSet depth 1 "gini_impurity"))
  /\ forall res q,
       validateDepth cv depth dataset_name p = Some (res, q) ->
       exists st,
         fold_loop_parallel cv (mkHyperparameterSet depth 1 "gini_impurity") p
         = Some st
         /\ make_result (mkHyperparameterSet depth 1 "gini_impurity")
              dataset_name st = (res, q)
         /\ Z.of_nat (length (trained st)) = k_folds_ cv
         /\ Forall (fun call =>
                      tc_max_height call = depth
                      /\ tc_min_obs call = 1
                      /\ tc_loss call = "gini_impurity"%string
                      /\ tc_regression call = regression_ cv
                      /\ unlimited call) (trained st).
Proof.
  intros Hk Hfair.
  change (validateDepth cv depth dataset_name p)
    with (validateSingleHyperparameter cv
            (mkHyperparameterSet depth 1 "gini_impurity") dataset_name p).
  split; [apply (validate_is_Some cv dataset_name Hk Hfair)|].
  intros res q Hrun.
  destruct (validate_loop cv _ dataset_name p q res Hrun) as (st & Hloop & Hres).
  exists st. split; [exact Hloop|]. split; [exact Hres|].
  rewrite fold_loop_parallel_ok in Hloop by assumption.
  destruct (mapM _ _) as [fs|]; [|discriminate].
  injection Hloop as <-. cbn [trained]. split.
  - rewrite length_fmap, (Permutation_length (Hfair (regions p))), length_seqZ.
    lia.
  - apply Forall_fmap, Forall_forall. intros i _. cbn. repeat split.
Qed.

Lemma validateDepth_trees_witness :
  let cv := mkCrossValidator Toy.rows 4 42 true in
  0 < k_folds_ cv
  /\ exists res q st,
       validateDepth (C := Toy.collaborators) (R := Toy.runtime 2) cv 3 "toy"
         Toy.start = Some (res, q)
       /\ fold_loop_parallel (C := Toy.collaborators) (R := Toy.runtime 2) cv
            (mkHyperparameterSet 3 1 "gini_impurity") Toy.start = Some st
       /\ Forall (fun call => tc_loss call = "gini_impurity"%string) (trained st).
Proof.
  intros cv.
  assert (Hk : 0 < k_folds_ cv) by reflexivity.
  split; [exact Hk|].
  destruct (validateDepth_trees (C := Toy.collaborators) (R := Toy.runtime 2)
              cv 3 "toy" Toy.start Hk (toy_runtime_fair 2 _)) as [_ Htrees].
  destruct (validateDepth (C := Toy.collaborators) (R := Toy.runtime 2) cv 3
              "toy" Toy.start) as [[res q]|] eqn:Hrun;
    [|vm_compute in Hrun; discriminate].
  destruct (Htrees res q eq_refl) as (st & Hloop & _ & _ & Hall).
  exists res, q, st. split; [reflexivity|]. split; [exact Hloop|].
  eapply Forall_impl; [exact Hall|]. intros call (_ & _ & Hloss & _). exact Hloss.
Defined.

(** ** [getBestParams] and means that are not numbers *)







(** ** Texts *)

Lemma append_assoc (a b c : string) : ((a ++ b) ++ c = a ++ (b ++ c))%string.
Proof. induction a as [|x a IH]; cbn; [reflexivity | now rewrite IH]. Qed.

Lemma append_empty_r (a : string) : (a ++ "")%string = a.
Proof. induction a as [|x a IH]; cbn; [reflexivity | now rewrite IH]. Qed.


Lemma concat_comma_before (field : string) (fields : list string) :
  String.concat "," (field :: fields) = (field ++ comma_before fields)%string.
Proof.
  revert field. induction fields as [|y fields IH]; intros field.
  - cbn. now rewrite append_empty_r.
  - change (String.concat "," (field :: y :: fields))
      with (field ++ "," ++ String.concat "," (y :: fields))%string.
    now rewrite IH.
Qed.

Lemma comma_before_app (l1 l2 : list string) :
  comma_before (l1 ++ l2) = (comma_before l1 ++ comma_before l2)%string.
Proof.
  induction l1 as [|x l1 IH]; [reflexivity|].
  cbn [app comma_before]. rewrite IH.
  change ("," ++ ?a)%string with (String comma a).
  cbn [append]. now rewrite append_assoc.
Qed.


(** ** The rows of [writeCVResultsToCSV] *)

Section Rows.
Context {F : Formatting}.

Lemma scores_loop (fold_scores : list float) (file : string) :
  for_range 0 (Z.min (Z.of_nat (length fold_scores)) 4)
    (fun i file =>
       do score <- fold_scores !! Z.to_nat i;
       Some (file ++ "," ++ show_fixed4 score)%string) file
  = Some (file ++ comma_before (show_fixed4 <$> take 4 fold_scores))%string.
Proof.
  destruct (for_range_invariant
              (fun i f => 0 <= i
                 /\ f = (file ++ comma_before
                           (show_fixed4 <$> take (Z.to_nat i) fold_scores))%string)
              (fun i file =>
                 do score <- fold_scores !! Z.to_nat i;
                 Some (file ++ "," ++ show_fixed4 score)%string)
              0 (Z.min (Z.of_nat (length fold_scores)) 4) file)
    as (f & Hrun & _ & ->).
  - lia.
  - split; [lia|]. cbn. now rewrite append_empty_r.
  - intros i f Hi [_ ->].
    destruct (lookup_lt_is_Some_2 fold_scores (Z.to_nat i)) as [x Hx]; [lia|].
    rewrite Hx. eexists. split; [reflexivity|]. split; [lia|].
    replace (Z.to_nat (i + 1)) with (S (Z.to_nat i)) by lia.
    rewrite (take_S_r _ _ _ Hx), fmap_app, comma_before_app.
    cbn [fmap list_fmap comma_before].
    now rewrite append_empty_r, !append_assoc.
  - rewrite Hrun. do 3 f_equal.
    destruct (Z.min_spec (Z.of_nat (length fold_scores)) 4) as [[Hlt ->]|[Hge ->]].
    + rewrite Nat2Z.id, !take_ge by lia. reflexivity.
    + reflexivity.
Qed.

Lemma padding_loop (n : nat) (lo : Z) (file : string) :
  for_from n lo (fun _ file => Some (file ++ ",")%string) file
  = Some (file ++ comma_before (replicate n EmptyString))%string.
Proof.
  revert lo file. induction n as [|n IH]; intros lo file.
  - cbn. now rewrite append_empty_r.
  - cbn [for_from replicate comma_before]. rewrite IH.
    now rewrite append_assoc.
Qed.

Lemma writeCVResultsToCSV_row_line (r : CVResult) (file : string) :
  writeCVResultsToCSV_row r file = Some (file ++ csv_line r)%string.
Proof.
  unfold writeCVResultsToCSV_row. rewrite scores_loop.
  unfold for_range. rewrite padding_loop. f_equal.
  unfold csv_line, csv_fields.
  rewrite resize_spec, length_fmap, fmap_take.
  cbn [app]. rewrite concat_comma_before.
  replace (Z.to_nat (4 - Z.of_nat (length (fold_scores r))))
    with (4 - length (fold_scores r))%nat by lia.
  change (comma_before (?a :: ?b :: ?c :: ?d :: ?e :: ?l))
    with ("," ++ a ++ "," ++ b ++ "," ++ c ++ "," ++ d ++ "," ++ e
          ++ comma_before l)%string.
  rewrite !comma_before_app.
  change (comma_before ["1"%string; "1"%string]) with ",1,1"%string.
  rewrite !append_assoc. reflexivity.
Qed.


End Rows.

(** X14: whatever the number of folds, the row [writeCVResultsToCSV]
    writes for a result is the comma-separated list of exactly twelve
    fields followed by an end of line; the four fold columns hold the
    first four fold scores: a fifth score and the following ones are
    dropped, and missing ones are left empty. *)
Theorem writeCVResultsToCSV_row_fields {F : Formatting} (r : CVResult)
    (file : string) :
  writeCVResultsToCSV_row r file
  = Some (file ++ String.concat "," (csv_fields r) ++ newline)%string
  /\ length (csv_fields r) = 12%nat
  /\ csv_fields r
     = ["parallel_cv"%string; dataset r; show_int (cv_max_depth r);
        show_fixed4 (cv_time_ms r); show_fixed4 (mean_cv_accuracy r);
        show_fixed4 (std_cv_accuracy r)]
       ++ (show_fixed4 <$> take 4 (fold_scores r))
       ++ replicate (4 - length (fold_scores r)) EmptyString
       ++ ["1"%string; "1"%string].
Proof.
  split; [apply writeCVResultsToCSV_row_line|]. unfold csv_fields. split.
  - cbn [app length]. now rewrite length_app, length_resize.
  - rewrite resize_spec, length_fmap, fmap_take, <- app_assoc. reflexivity.
Qed.

Example writeCVResultsToCSV_row_two_folds :
  writeCVResultsToCSV_row (F := ToyFormat.formatting)
    (mkCVResult "toy" 3 12 0.75 0.25 [1; 0.25]%float) ""
  = Some ("parallel_cv,toy,1,1.0000,1.0000,0.0000,1.0000,0.0000,,,1,1"
          ++ newline)%string.
Proof. vm_compute. reflexivity. Qed.

Example writeCVResultsToCSV_row_five_folds :
  writeCVResultsToCSV_row (F := ToyFormat.formatting)
    (mkCVResult "toy" 3 12 0.75 0.25 [1; 0.25; 1; 1; 0.25]%float) ""
  = Some ("parallel_cv,toy,1,1.0000,1.0000,0.0000,1.0000,0.0000,1.0000,1.0000,1,1"
          ++ newline)%string.
Proof. vm_compute. reflexivity. Qed.





(** The file of one result when it can be opened, and when it cannot. *)
Example writeCVResultsToCSV_opened_or_not :
  let results := [mkCVResult "toy" 3 12 0.75 0.25 [1; 0.25]%float] in
  writeCVResultsToCSV (F := ToyFormat.formatting) (FS := ToyFormat.file_system)
    results "out.csv"
  = Some (Some (cv_csv_header
                ++ "parallel_cv,toy,1,1.0000,1.0000,0.0000,1.0000,0.0000,,,1,1"
                ++ newline)%string,
          ("Results saved to out.csv" ++ newline)%string)
  /\ writeCVResultsToCSV (F := ToyFormat.formatting)
       (FS := ToyFormat.file_system) results "/nonexistent_dir/out.csv"
     = Some (None, ("Results saved to /nonexistent_dir/out.csv" ++ newline)%string).
Proof. vm_compute. split; reflexivity. Qed.



(** ** The summary block of [main] *)

Section Running.
Context {A B : Type}.
Variable lt : float -> float -> bool.
Hypothesis lt_irrefl : forall x, lt x x = false.
Hypothesis lt_trans : forall x y z, lt x y = true -> lt y z = true -> lt x z = true.
Variables (key : A -> float) (val : A -> B).

Lemma running_best_spec (l : list A) (b0 : float) (v0 : B) :
  let best := running_best lt key val l (b0, v0) in
  (forall x, In x l -> lt (fst best) (key x) = false)
  /\ (best = (b0, v0)
      \/ exists x, In x l /\ best = (key x, val x) /\ lt b0 (key x) = true).
Proof.
  induction l as [|x l IH] using rev_ind; cbn zeta.
  - split; [intros x []|]. now left.
  - unfold running_best in *. rewrite fold_left_app. cbn [fold_left].
    set (best := fold_left _ l (b0, v0)) in *. cbn zeta in IH.
    destruct IH as [Hall Hfrom].
    destruct (lt (fst best) (key x)) eqn:Hlt.
    + split.
      * intros y [Hy|[<-|[]]]%in_app_or; cbn [fst]; [|apply lt_irrefl].
        apply not_true_is_false. intros Hxy.
        pose proof (Hall y Hy) as Hcontra.
        rewrite (lt_trans _ _ _ Hlt Hxy) in Hcontra. discriminate.
      * right. exists x. split; [apply in_or_app; right; now left|].
        split; [reflexivity|].
        destruct Hfrom as [Hsame|(y & Hy & Hbest & Hb0)].
        -- now rewrite Hsame in Hlt.
        -- rewrite Hbest in Hlt. cbn [fst] in Hlt. now apply (lt_trans _ (key y)).
    + split.
      * intros y [Hy|[<-|[]]]%in_app_or; [now apply Hall | exact Hlt].
      * destruct Hfrom as [Hsame|(y & Hy & Hbest & Hb0)]; [now left|].
        right. exists y. split; [apply in_or_app; now left|]. now split.
Qed.

End Running.

Lemma float_gtb_trans (x y z : float) :
  (y <? x)%float = true -> (z <? y)%float = true -> (z <? x)%float = true.
Proof. intros Hyx Hzy. exact (float_ltb_trans z y x Hzy Hyx). Qed.

Lemma dataset_results_filter (all_results acc : list CVResult) (name : string) :
  fold_left
    (fun dataset_results r =>
       if String.eqb (dataset r) name then dataset_results ++ [r]
       else dataset_results)
    all_results acc
  = acc ++ List.filter (fun r => String.eqb (dataset r) name) all_results.
Proof.
  revert acc. induction all_results as [|r l IH]; intros acc; cbn.
  - now rewrite app_nil_r.
  - rewrite IH. destruct (String.eqb (dataset r) name); [|reflexivity].
    now rewrite <- app_assoc.
Qed.

Lemma summary_loop_best (l : list CVResult) (s : cv_summary) :
  (best_cv_acc (fold_left summary_step l s), best_depth (fold_left summary_step l s))
  = running_best PrimFloat.ltb mean_cv_accuracy cv_max_depth l
      (best_cv_acc s, best_depth s).
Proof.
  revert s. induction l as [|r l IH]; intros s; [reflexivity|].
  cbn [fold_left running_best]. rewrite IH. unfold running_best, summary_step.
  cbn [fst]. now destruct (best_cv_acc s <? mean_cv_accuracy r)%float.
Qed.

Lemma summary_loop_max (l : list CVResult) (s : cv_summary) :
  max_time (fold_left summary_step l s)
  = fst (running_best PrimFloat.ltb cv_time_ms (fun _ => tt) l (max_time s, tt)).
Proof.
  revert s. induction l as [|r l IH]; intros s; [reflexivity|].
  cbn [fold_left running_best]. rewrite IH. unfold running_best, summary_step, std_max.
  cbn [fst].
  destruct (best_cv_acc s <? mean_cv_accuracy r)%float;
    now destruct (max_time s <? cv_time_ms r)%float.
Qed.

Lemma summary_loop_min (l : list CVResult) (s : cv_summary) :
  min_time (fold_left summary_step l s)
  = fst (running_best (fun a b => PrimFloat.ltb b a) cv_time_ms (fun _ => tt) l
           (min_time s, tt)).
Proof.
  revert s. induction l as [|r l IH]; intros s; [reflexivity|].
  cbn [fold_left running_best]. rewrite IH. unfold running_best, summary_step, std_min.
  cbn [fst].
  destruct (best_cv_acc s <? mean_cv_accuracy r)%float;
    now destruct (cv_time_ms r <? min_time s)%float.
Qed.

Lemma dataset_summary_Some (all_results : list CVResult) (name : string)
    (s : cv_summary) :
  dataset_summary all_results name = Some s ->
  exists first rest,
    List.filter (fun r => String.eqb (dataset r) name) all_results = first :: rest
    /\ s = fold_left summary_step (first :: rest)
             (mkSummary 0 0 (cv_time_ms first) 0 0).
Proof.
  unfold dataset_summary. rewrite dataset_results_filter. cbn [app].
  destruct (List.filter _ all_results) as [|first rest]; [discriminate|].
  intros [= <-]. now exists first, rest.
Qed.

Lemma in_dataset (all_results : list CVResult) (name : string) (r : CVResult) :
  In r (List.filter (fun r => String.eqb (dataset r) name) all_results)
  <-> In r all_results /\ dataset r = name.
Proof. rewrite filter_In, String.eqb_eq. reflexivity. Qed.

(** X17: the best accuracy of the summary block starts at [0.0] with the
    depth [0], unlike [getBestParams].  No result of the dataset has a
    greater mean than the one reported; but the reported depth is that of
    a result only if some result has a mean above zero, and otherwise the
    block reports the accuracy [0.0] at the depth [0], which was never
    tested. *)
Theorem dataset_summary_best (all_results : list CVResult) (name : string)
    (s : cv_summary) :
  dataset_summary all_results name = Some s ->
  (forall r, In r all_results -> dataset r = name ->
     (best_cv_acc s <? mean_cv_accuracy r)%float = false)
  /\ ((best_cv_acc s = 0%float /\ best_depth s = 0
       /\ forall r, In r all_results -> dataset r = name ->
            (0 <? mean_cv_accuracy r)%float = false)
      \/ exists r,
           In r all_results /\ dataset r = name
           /\ best_cv_acc s = mean_cv_accuracy r
           /\ best_depth s = cv_max_depth r
           /\ (0 <? mean_cv_accuracy r)%float = true).
Proof.
  intros (first & rest & Hfilter & ->)%dataset_summary_Some.
  pose proof (summary_loop_best (first :: rest)
                (mkSummary 0 0 (cv_time_ms first) 0 0)) as Hbest.
  cbn [best_cv_acc best_depth] in Hbest.
  destruct (running_best_spec PrimFloat.ltb float_ltb_irrefl float_ltb_trans
              mean_cv_accuracy cv_max_depth (first :: rest) 0%float 0)
    as [Hall Hfrom].
  rewrite <- Hbest in Hall, Hfrom. cbn [fst] in Hall.
  set (s := fold_left summary_step (first :: rest) _) in *.
  assert (Hall' : forall r, In r all_results -> dataset r = name ->
                    (best_cv_acc s <? mean_cv_accuracy r)%float = false).
  { intros r Hr Hname. apply Hall. rewrite <- Hfilter. now apply in_dataset. }
  split; [exact Hall'|].
  destruct Hfrom as [[= Hacc Hdepth]|(r & Hr & [= Hacc Hdepth] & Hpos)].
  - left. split; [exact Hacc|]. split; [exact Hdepth|].
    intros r Hr Hname. rewrite <- Hacc. now apply Hall'.
  - right. exists r. rewrite <- Hfilter in Hr. apply in_dataset in Hr as [Hin Hname].
    repeat split; assumption.
Qed.

Lemma dataset_summary_best_witness :
  let results :=
    [ mkCVResult "cancer" 1 3 0 0 [0; 0; 0; 0];
      mkCVResult "hmeq" 2 5 0.75 0 [0.75; 0.75; 0.75; 0.75] ]%float in
  let s := mkSummary 3 3 3 0 0 in
  dataset_summary results "cancer" = Some s
  /\ best_depth s = 0.
Proof.
  intros results s.
  assert (Hs : dataset_summary results "cancer" = Some s)
    by (vm_compute; reflexivity).
  split; [exact Hs|].
  destruct (dataset_summary_best results "cancer" s Hs)
    as [_ [(_ & Hdepth & _)|(r & _ & _ & _ & _ & _)]]; reflexivity.
Defined.

(** X18: for a dataset with at least one result, the maximum time of the
    summary block is exceeded by no time of the dataset and is [0.0] or
    one of those times; the minimum time is one of the times of the
    dataset and no time of the dataset is below it. *)
Theorem dataset_summary_times (all_results : list CVResult) (name : string)
    (s : cv_summary) :
  dataset_summary all_results name = Some s ->
  (forall r, In r all_results -> dataset r = name ->
     (max_time s <? cv_time_ms r)%float = false
     /\ (cv_time_ms r <? min_time s)%float = false)
  /\ (max_time s = 0%float
      \/ exists r, In r all_results /\ dataset r = name
                   /\ max_time s = cv_time_ms r)
  /\ (exists r, In r all_results /\ dataset r = name
                /\ min_time s = cv_time_ms r).
Proof.
  intros (first & rest & Hfilter & ->)%dataset_summary_Some.
  pose proof (summary_loop_max (first :: rest)
                (mkSummary 0 0 (cv_time_ms first) 0 0)) as Hmax.
  pose proof (summary_loop_min (first :: rest)
                (mkSummary 0 0 (cv_time_ms first) 0 0)) as Hmin.
  cbn [max_time min_time] in Hmax, Hmin.
  destruct (running_best_spec PrimFloat.ltb float_ltb_irrefl float_ltb_trans
              cv_time_ms (fun _ => tt) (first :: rest) 0%float tt)
    as [Hmax_all Hmax_from].
  destruct (running_best_spec (fun a b => PrimFloat.ltb b a) float_ltb_irrefl
              float_gtb_trans cv_time_ms (fun _ => tt) (first :: rest)
              (cv_time_ms first) tt)
    as [Hmin_all Hmin_from].
  set (s := fold_left summary_step (first :: rest) _) in *.
  assert (Hfirst : In first all_results /\ dataset first = name).
  { apply in_dataset. rewrite Hfilter. now left. }
  split; [|split].
  - intros r Hr Hname.
    assert (Hin : In r (first :: rest))
      by (rewrite <- Hfilter; now apply in_dataset).
    split.
    + rewrite Hmax. now apply Hmax_all.
    + rewrite Hmin. now apply Hmin_all.
  - rewrite Hmax.
    destruct Hmax_from as [->|(r & Hr & -> & _)]; [now left|].
    right. exists r. rewrite <- Hfilter in Hr.
    apply in_dataset in Hr as [Hin Hname]. now repeat split.
  - rewrite Hmin.
    destruct Hmin_from as [->|(r & Hr & -> & _)].
    + exists first. now repeat split.
    + exists r. rewrite <- Hfilter in Hr.
      apply in_dataset in Hr as [Hin Hname]. now repeat split.
Qed.

Lemma dataset_summary_times_witness :
  let results :=
    [ mkCVResult "cancer" 1 3 0.5 0 [0.5; 0.5; 0.5; 0.5];
      mkCVResult "hmeq" 2 5 0.75 0 [0.75; 0.75; 0.75; 0.75];
      mkCVResult "cancer" 2 2 0.75 0 [0.75; 0.75; 0.75; 0.75] ]%float in
  let s := mkSummary 5 3 2 0.75 2 in
  dataset_summary results "cancer" = Some s
  /\ exists r, In r results /\ min_time s = cv_time_ms r.
Proof.
  intros results s.
  assert (Hs : dataset_summary results "cancer" = Some s)
    by (vm_compute; reflexivity).
  split; [exact Hs|].
  destruct (dataset_summary_times results "cancer" s Hs)
    as (_ & _ & r & Hin & _ & Hmin).
  exists r. split; assumption.
Defined.

(** ** How often a row is used *)

Lemma training_blocks_concat (shuffled : DataFrame) (k : Z) (m : nat) :
  0 < k -> Z.of_nat m <= k ->
  concat (training_rows shuffled k <$> seqZ 0 (Z.of_nat m))
  ++ concat (validation_block shuffled k <$> seqZ 0 (Z.of_nat m))
  ≡ₚ concat (replicate m shuffled).
Proof.
  intros Hk. induction m as [|m IH]; intros Hm; [reflexivity|].
  rewrite seqZ_S, !fmap_app, !concat_app. cbn [fmap list_fmap concat].
  rewrite !app_nil_r, Z.add_0_l.
  replace (S m) with (m + 1)%nat by lia.
  rewrite replicate_add, concat_app. cbn [replicate concat].
  rewrite app_nil_r.
  set (trs := concat (training_rows shuffled k <$> seqZ 0 (Z.of_nat m))) in *.
  set (vas := concat (validation_block shuffled k <$> seqZ 0 (Z.of_nat m))) in *.
  apply Permutation_trans
    with ((trs ++ vas)
          ++ (training_rows shuffled k (Z.of_nat m)
              ++ validation_block shuffled k (Z.of_nat m))).
  - rewrite <- !app_assoc. apply Permutation_app_head.
    apply Permutation_app_swap_app.
  - apply Permutation_app; [apply IH; lia|].
    apply training_validation_all; lia.
Qed.

(** X19: over the fold set of [k >= 1] folds, every shuffled row is
    validated on exactly once and trained on exactly [k - 1] times: the
    training subsets together hold [k - 1] copies of the shuffled
    dataset. *)
Theorem createKFolds_training_coverage {C : Collaborators} (data : DataFrame)
    (k seed : Z) :
  0 < k ->
  let shuffled := sample data (-1) seed false in
  exists folds,
    createKFolds data k seed = Some folds
    /\ concat (validation_of <$> folds) = shuffled
    /\ concat (training_of <$> folds)
       ≡ₚ concat (replicate (Z.to_nat (k - 1)) shuffled).
Proof.
  intros Hk shuffled.
  eexists. split; [now apply createKFolds_blocks|]. fold shuffled.
  rewrite <- !list_fmap_compose.
  change (validation_of ∘ fold_pair_of shuffled k) with (validation_block shuffled k).
  change (training_of ∘ fold_pair_of shuffled k) with (training_rows shuffled k).
  assert (Hval : concat (validation_block shuffled k <$> seqZ 0 k) = shuffled).
  { rewrite <- (Z2Nat.id k) at 2 by lia.
    rewrite validation_blocks_concat by lia.
    rewrite Z2Nat.id, block_start_k by lia.
    apply take_ge. unfold df_length. lia. }
  split; [exact Hval|].
  pose proof (training_blocks_concat shuffled k (Z.to_nat k) Hk ltac:(lia)) as Hall.
  rewrite Z2Nat.id, Hval in Hall by lia.
  replace (Z.to_nat k) with (Z.to_nat (k - 1) + 1)%nat in Hall by lia.
  rewrite replicate_add, concat_app in Hall. cbn [replicate concat] in Hall.
  rewrite app_nil_r in Hall.
  now apply Permutation_app_inv_r in Hall.
Qed.

Lemma createKFolds_training_coverage_witness :
  0 < 4
  /\ exists folds,
       createKFolds (C := Toy.collaborators) Toy.rows 4 42 = Some folds
       /\ length (concat (training_of <$> folds)) = 18%nat.
Proof.
  assert (Hk : 0 < 4) by lia.
  split; [exact Hk|].
  destruct (createKFolds_training_coverage (C := Toy.collaborators) Toy.rows 4 42
              Hk) as (folds & Hrun & _ & Hperm).
  exists folds. split; [exact Hrun|].
  rewrite (Permutation_length Hperm). reflexivity.
Defined.
